(** * TechAI media tools: the usage-capped image generator and the
      stock-asset search client

    A shallow embedding of [tools/imagen_generate.py] and
    [tools/freepik_client.py].  Python objects decoded from JSON are an
    inductive type, exceptions are values, and every function that touches
    the usage file, the console or the network is a state-and-exception
    computation over an explicit world. *)

From Stdlib Require Import ZArith List String Bool Lia.
Import ListNotations.

Set Warnings "-register-all".
Local Open Scope string_scope.
Local Open Scope Z_scope.

(** ** Python values and exceptions *)

Module Py.

(** What [json.load] / [response.json()] can produce.  [JNum] carries the
    integers only: JSON numbers with a fraction or an exponent decode to
    Python floats and are outside this model: what is proved about a
    stored count is proved for integer counts.  A [JObj] lists the items of
    a Python dict in insertion order.  A str is a string of bytes, so its
    length and slices agree with Python's on ASCII text. *)
Inductive json : Type :=
| JNull
| JBool (b : bool)
| JNum (n : Z)
| JStr (s : string)
| JArr (items : list json)
| JObj (items : list (string * json)).

Inductive exn : Type :=
| JSONDecodeError
| AttributeError
| KeyError (key : string)
| TypeError
| IndexError
| UnboundLocalError (name : string)
| SystemExit (code : Z)
| ConnectionError
| Timeout
| HTTPError (status : Z)
| InvalidJSONError
| ExternalError (what : string).

(** [isinstance(e, requests.exceptions.RequestException)] for the
    exceptions the [requests] calls of the search client raise. *)
Definition is_RequestException (e : exn) : bool :=
  match e with
  | ConnectionError | Timeout | HTTPError _ | InvalidJSONError => true
  | _ => false
  end.

Inductive outcome (A : Type) : Type :=
| Ret (a : A)
| Raise (e : exn).
Arguments Ret {A} a.
Arguments Raise {A} e.

(** A computation over a world [W]: it returns or raises, and leaves a
    world behind in both cases. *)
Definition M (W A : Type) : Type := W -> outcome A * W.

Definition ret {W A} (a : A) : M W A := fun w => (Ret a, w).
Definition raise {W A} (e : exn) : M W A := fun w => (Raise e, w).
Definition bind {W A B} (c : M W A) (k : A -> M W B) : M W B :=
  fun w => match c w with
           | (Ret a, w') => k a w'
           | (Raise e, w') => (Raise e, w')
           end.
(** A pure step that may raise. *)
Definition lift {W A} (o : outcome A) : M W A := fun w => (o, w).

Declare Scope py_scope.
Delimit Scope py_scope with py.
Notation "x <- c ;; k" := (bind c (fun x => k))
  (at level 61, c at next level, right associativity) : py_scope.
Notation "c ;;; k" := (bind c (fun _ => k))
  (at level 61, right associativity) : py_scope.

(** The first item stored under [k], as [dict.get] and [dict[k]] find it. *)
Fixpoint dict_get (d : list (string * json)) (k : string) : option json :=
  match d with
  | [] => None
  | (k', v) :: d' => if String.eqb k' k then Some v else dict_get d' k
  end.

(** [d[k] = v]: an existing key keeps its place, a new key goes last. *)
Fixpoint dict_set (d : list (string * json)) (k : string) (v : json)
  : list (string * json) :=
  match d with
  | [] => [(k, v)]
  | (k', v') :: d' =>
      if String.eqb k' k then (k', v) :: d' else (k', v') :: dict_set d' k v
  end.

(** [o.get(k)]: only a dict has the method; a missing key gives [None]. *)
Definition py_get (o : json) (k : string) : outcome json :=
  match o with
  | JObj d => Ret (match dict_get d k with Some v => v | None => JNull end)
  | _ => Raise AttributeError
  end.

(** [o.get(k, default)]. *)
Definition py_get_default (o : json) (k : string) (dflt : json) : outcome json :=
  match o with
  | JObj d => Ret (match dict_get d k with Some v => v | None => dflt end)
  | _ => Raise AttributeError
  end.

(** [o[k]] for a string key [k]. *)
Definition py_getitem (o : json) (k : string) : outcome json :=
  match o with
  | JObj d => match dict_get d k with Some v => Ret v | None => Raise (KeyError k) end
  | _ => Raise TypeError
  end.

(** [o[k] = v] for a string key [k]. *)
Definition py_setitem (o : json) (k : string) (v : json) : outcome json :=
  match o with
  | JObj d => Ret (JObj (dict_set d k v))
  | _ => Raise TypeError
  end.

(** [o != s] for a str [s]: values of another type are never equal to it. *)
Definition py_ne_str (o : json) (s : string) : bool :=
  match o with
  | JStr t => negb (String.eqb t s)
  | _ => true
  end.

(** The integer a value stands for in arithmetic and ordering against an
    int: [bool] is a subclass of [int]; every other type raises. *)
Definition py_int (o : json) : outcome Z :=
  match o with
  | JNum n => Ret n
  | JBool b => Ret (if b then 1 else 0)
  | _ => Raise TypeError
  end.

(** [o >= n] for an int [n]. *)
Definition py_ge_int (o : json) (n : Z) : outcome bool :=
  match py_int o with
  | Ret c => Ret (n <=? c)
  | Raise e => Raise e
  end.

(** [o + n] for an int [n]. *)
Definition py_add_int (o : json) (n : Z) : outcome json :=
  match py_int o with
  | Ret c => Ret (JNum (c + n))
  | Raise e => Raise e
  end.

(** [len(o)]. *)
Definition py_len (o : json) : outcome Z :=
  match o with
  | JArr l => Ret (Z.of_nat (List.length l))
  | JObj d => Ret (Z.of_nat (List.length d))
  | JStr s => Ret (Z.of_nat (String.length s))
  | _ => Raise TypeError
  end.

Fixpoint chars (s : string) : list json :=
  match s with
  | EmptyString => []
  | String c s' => JStr (String c EmptyString) :: chars s'
  end.

(** What [for x in o] visits: the items of a list, the keys of a dict, the
    characters of a str. *)
Definition py_iter (o : json) : outcome (list json) :=
  match o with
  | JArr l => Ret l
  | JObj d => Ret (map (fun kv => JStr (fst kv)) d)
  | JStr s => Ret (chars s)
  | _ => Raise TypeError
  end.

(** [try: body  except RequestException as e: handler(e)]. *)
Definition try_except {W A} (body : M W A) (handler : exn -> M W A) : M W A :=
  fun w => match body w with
           | (Ret a, w') => (Ret a, w')
           | (Raise e, w') =>
               if is_RequestException e then handler e w' else (Raise e, w')
           end.

End Py.

Import Py.
Local Open Scope py_scope.

(** ** [tools/imagen_generate.py] *)

Module Imagen.

(** Configuration constants of the script. *)
Definition PROJECT_ID : string := "techair-actech".
Definition LOCATION : string := "us-central1".
Definition MODEL_ID : string := "imagegeneration@006".
Definition CREDENTIALS_FILE : string :=
  "D:/TechAI/Credentials/TechAir Vertex JSON API Key.json".

(** Console lines; an f-string is its tag and the values it formats. *)
Inductive msg : Type :=
| CapReached (cap : Z)
| CurrentUsage (count : json) (cap : Z)
| UsageNow (count : json) (cap : Z)
| SdkMissing
| SdkInstallHint
| Initializing (project : string)
| Generating (prompt_head : string)
| ImageSaved (path : string).

(** Calls into the Vertex AI client library. *)
Inductive call : Type :=
| VertexInit (project location : string)
| FromPretrained (model_id : string)
| GenerateImages (prompt : string) (number_of_images : Z)
| ImageSave (output_path : string).

(** The client library as the script meets it: installed or not, which
    calls raise, and how many images a prompt yields. *)
Record Sdk : Type := mkSdk {
  installed : bool;
  fails : call -> bool;
  images_for : string -> nat
}.

Section Generator.

(** The text of the usage file, with [json.load] ([None]: the text does not
    decode, [JSONDecodeError]) and [json.dump].  The properties that follow
    a written record into the next call assume that a dumped value decodes
    to itself, as it does for dicts with str keys and int, str, bool and
    list values. *)
Variable text : Type.
Variable json_loads : text -> option json.
Variable json_dumps : json -> text.

(** The monthly cap; the script sets it to 2500. *)
Variable MONTHLY_CAP : Z.

(** [usage_file]: the contents of [USAGE_FILE], [None] while it does not
    exist.  [writes]: what [save_usage] has written, oldest first.
    [environ]: the process environment.  [calls]: the client-library calls
    made.  [stdout]: the console. *)
Record World : Type := mkWorld {
  usage_file : option text;
  writes : list text;
  environ : list (string * string);
  calls : list call;
  stdout : list msg
}.

Definition print (m : msg) : M World unit :=
  fun w => (Ret tt, mkWorld (usage_file w) (writes w) (environ w) (calls w)
                            (stdout w ++ [m])).

Definition usage_record (month : string) (count : Z) : json :=
  JObj [("month", JStr month); ("count", JNum count)].

(** [now] is [datetime.now().strftime("%Y-%m")]; the gate reads the clock
    again after [load_usage], and one call is taken to see one month (a
    default record built for another month would be reset to the same
    [{month, 0}] by the gate). *)
Definition load_usage (now : string) : M World json :=
  fun w => match usage_file w with
           | Some t => match json_loads t with
                       | Some v => (Ret v, w)
                       | None => (Raise JSONDecodeError, w)
                       end
           | None => (Ret (usage_record now 0), w)
           end.

(** The directory of [USAGE_FILE] is taken to exist and to be writable. *)
Definition save_usage (usage : json) : M World unit :=
  fun w => (Ret tt, mkWorld (Some (json_dumps usage))
                            (writes w ++ [json_dumps usage])
                            (environ w) (calls w) (stdout w)).

Definition check_and_increment_usage (now : string) : M World bool :=
  usage <- load_usage now ;;
  let current_month := now in
  stored_month <- lift (py_get usage "month") ;;
  let usage := if py_ne_str stored_month current_month
               then usage_record current_month 0 else usage in
  count <- lift (py_getitem usage "count") ;;
  reached <- lift (py_ge_int count MONTHLY_CAP) ;;
  if reached : bool then
    print (CapReached MONTHLY_CAP) ;;;
    print (CurrentUsage count MONTHLY_CAP) ;;;
    ret false
  else
    count' <- lift (py_add_int count 1) ;;
    usage' <- lift (py_setitem usage "count" count') ;;
    save_usage usage' ;;;
    print (UsageNow count' MONTHLY_CAP) ;;;
    ret true.

Variable sdk : Sdk.

Definition setenv (k v : string) : M World unit :=
  fun w => (Ret tt, mkWorld (usage_file w) (writes w) ((k, v) :: environ w)
                            (calls w) (stdout w)).

(** A call into the client library is recorded, then returns or raises. *)
Definition external (c : call) : M World unit :=
  fun w => let w' := mkWorld (usage_file w) (writes w) (environ w)
                             (calls w ++ [c]) (stdout w) in
           if fails sdk c then (Raise (ExternalError "vertexai"), w')
           else (Ret tt, w').

Definition generate_image (now prompt output_path : string) : M World string :=
  allowed <- check_and_increment_usage now ;;
  if negb allowed then raise (SystemExit 1)
  else
    setenv "GOOGLE_APPLICATION_CREDENTIALS" CREDENTIALS_FILE ;;;
    if negb (installed sdk) then
      print SdkMissing ;;;
      print SdkInstallHint ;;;
      raise (SystemExit 1)
    else
      print (Initializing PROJECT_ID) ;;;
      external (VertexInit PROJECT_ID LOCATION) ;;;
      print (Generating (substring 0 50 prompt)) ;;;
      external (FromPretrained MODEL_ID) ;;;
      external (GenerateImages prompt 1) ;;;
      match images_for sdk prompt with
      | O => raise IndexError
      | S _ =>
          external (ImageSave output_path) ;;;
          print (ImageSaved output_path) ;;;
          ret output_path
      end.

(** Successive invocations of the gate, one per clock reading, stopping at
    the first that raises; the decisions are collected in order. *)
Fixpoint run_gate (months : list string) : M World (list bool) :=
  match months with
  | [] => ret []
  | now :: rest =>
      b <- check_and_increment_usage now ;;
      bs <- run_gate rest ;;
      ret (b :: bs)
  end.

(** *** Vocabulary for the properties below *)

(** The world a successful reservation leaves: [usage] written, one line
    printed. *)
Definition reserved (w : World) (usage count : json) : World :=
  mkWorld (Some (json_dumps usage)) (writes w ++ [json_dumps usage]) (environ w) (calls w)
          (stdout w ++ [UsageNow count MONTHLY_CAP]).

(** The world a denial leaves: two lines printed, nothing else. *)
Definition refused (w : World) (count : json) : World :=
  mkWorld (usage_file w) (writes w) (environ w) (calls w)
          (stdout w ++ [CapReached MONTHLY_CAP; CurrentUsage count MONTHLY_CAP]).

(** What the gate does once [load_usage] has returned [usage]. *)
Definition after_load (now : string) (usage : json) (w : World)
  : outcome bool * World :=
  match usage with
  | JObj d =>
      let stored_month := match dict_get d "month" with Some v => v | None => JNull end in
      let d0 := if py_ne_str stored_month now
                then [("month", JStr now); ("count", JNum 0)] else d in
      match dict_get d0 "count" with
      | None => (Raise (KeyError "count"), w)
      | Some c =>
          match py_int c with
          | Raise e => (Raise e, w)
          | Ret n =>
              if MONTHLY_CAP <=? n then (Ret false, refused w c)
              else (Ret true,
                    reserved w (JObj (dict_set d0 "count" (JNum (n + 1)))) (JNum (n + 1)))
          end
      end
  | _ => (Raise AttributeError, w)
  end.

(** The store holds count [c] for month [now]: as a written record, or, for
    [c = 0], by not existing. *)
Definition holds (w : World) (now : string) (c : Z) : Prop :=
  usage_file w = Some (json_dumps (usage_record now c))
  \/ (c = 0 /\ usage_file w = None).

(** The records written by reservations number [c + 1] to [c + k]. *)
Definition records (now : string) (c : Z) (k : nat) : list text :=
  map (fun i => json_dumps (usage_record now (c + Z.of_nat i))) (seq 1 k).

(** The count the store holds, if it holds one, is not negative. *)
Definition count_not_negative (w : World) : bool :=
  match usage_file w with
  | None => true
  | Some t =>
      match json_loads t with
      | Some (JObj d) =>
          match dict_get d "count" with
          | Some c => match py_int c with Ret n => 0 <=? n | Raise _ => true end
          | None => true
          end
      | _ => true
      end
  end.

End Generator.

Arguments mkWorld {text}.
Arguments usage_file {text}.
Arguments writes {text}.
Arguments environ {text}.
Arguments calls {text}.
Arguments stdout {text}.
Arguments print {text}.
Arguments load_usage {text}.
Arguments save_usage {text}.
Arguments check_and_increment_usage {text}.
Arguments setenv {text}.
Arguments external {text}.
Arguments generate_image {text}.
Arguments run_gate {text}.
Arguments reserved {text}.
Arguments refused {text}.
Arguments after_load {text}.
Arguments holds {text}.
Arguments records {text}.
Arguments count_not_negative {text}.

(** The cap the script is configured with. *)
Definition MONTHLY_CAP : Z := 2500.

(** The usage file seen through its decoding: a text is the value it
    decodes to, [None] for a text that is not JSON. *)
Definition decoded : Type := option json.
Definition decoded_loads (t : decoded) : option json := t.
Definition decoded_dumps (v : json) : decoded := Some v.

(** A first run: no usage file, nothing written, called or printed. *)
Definition first_run : World decoded := mkWorld None [] [] [] [].

(** A world whose usage file holds [t]. *)
Definition with_file {text} (w : World text) (t : text) : World text :=
  mkWorld (Some t) (writes w) (environ w) (calls w) (stdout w).

(** The gate and the generator over decoded files. *)
Definition gate_at (cap : Z) : string -> M (World decoded) bool :=
  check_and_increment_usage decoded_loads decoded_dumps cap.
Definition run_at (cap : Z) : list string -> M (World decoded) (list bool) :=
  run_gate decoded_loads decoded_dumps cap.

(** A client library that is installed, never raises and returns one image
    per prompt. *)
Definition working_sdk : Sdk := mkSdk true (fun _ => false) (fun _ => 1%nat).

End Imagen.

(** ** [tools/freepik_client.py] *)

Module Freepik.

Definition BASE_URL : string := "https://api.freepik.com/v1".

Record Params : Type := mkParams {
  locale : string;
  page : Z;
  limit : Z;
  term : string
}.

Record Request : Type := mkRequest {
  url : string;
  headers : list (string * string);
  params : Params
}.

(** A [requests.Response]: [json_body] is what [response.json()] decodes,
    [None] when the body is not JSON. *)
Record Response : Type := mkResponse {
  status_code : Z;
  text : string;
  json_body : option json
}.

Inductive msg : Type :=
| Searching (query : string)
| Found (n : Z)
| Resource (id title url : json)
| ApiError (e : exn)
| ResponseText (body : string).

(** [requests]: the requests sent, oldest first.  [stdout]: the console. *)
Record World : Type := mkWorld {
  requests : list Request;
  stdout : list msg
}.

Definition print (m : msg) : M World unit :=
  fun w => (Ret tt, mkWorld (requests w) (stdout w ++ [m])).

(** [response.raise_for_status()]: 4xx and 5xx raise [HTTPError]. *)
Definition raise_for_status (r : Response) : outcome unit :=
  if (400 <=? status_code r) && (status_code r <? 600)
  then Raise (HTTPError (status_code r))
  else Ret tt.

(** [response.json()]; its decode error is a [RequestException]
    (requests 2.27 and later). *)
Definition response_json (r : Response) : outcome json :=
  match json_body r with
  | Some v => Ret v
  | None => Raise InvalidJSONError
  end.

Section Client.

(** The key read from [master_keys.env] when the module is loaded. *)
Variable API_KEY : string.

(** The network: what [requests.get] returns or raises for a request. *)
Variable network : Request -> outcome Response.

Definition requests_get (rq : Request) : M World Response :=
  fun w => (network rq, mkWorld (requests w ++ [rq]) (stdout w)).

(** One line per resource, in order; a resource that is not a dict has no
    [get]. *)
Fixpoint print_resources (resources : list json) : M World unit :=
  match resources with
  | [] => ret tt
  | res :: rest =>
      id <- lift (py_get res "id") ;;
      title <- lift (py_get res "title") ;;
      u <- lift (py_get res "url") ;;
      print (Resource id title u) ;;;
      print_resources rest
  end.

(** The [except] block.  [response] is a local of [search_resources]; it is
    unbound until [requests.get] has returned. *)
Definition on_request_exception (response : option Response) (e : exn)
  : M World json :=
  print (ApiError e) ;;;
  match response with
  | None => raise (UnboundLocalError "response")
  | Some r =>
      (if String.eqb (text r) "" then ret tt else print (ResponseText (text r))) ;;;
      ret (JArr [])
  end.

(** The [try] body is split where [response] becomes bound, so that the
    handler sees whether it is. *)
Definition search_resources (query : string) (limit page : Z) : M World json :=
  let url := BASE_URL ++ "/resources" in
  let headers := [("Accept-Language", "en-US"); ("X-Freepik-API-Key", API_KEY)] in
  let params := mkParams "en-US" page limit query in
  try_except
    (print (Searching query) ;;;
     response <- requests_get (mkRequest url headers params) ;;
     try_except
       (lift (raise_for_status response) ;;;
        data <- lift (response_json response) ;;
        resources <- lift (py_get_default data "data" (JArr [])) ;;
        n <- lift (py_len resources) ;;
        print (Found n) ;;;
        items <- lift (py_iter resources) ;;
        print_resources items ;;;
        ret resources)
       (on_request_exception (Some response)))
    (on_request_exception None).

(** The request [search_resources] sends. *)
Definition search_request (query : string) (limit page : Z) : Request :=
  mkRequest (BASE_URL ++ "/resources")
            [("Accept-Language", "en-US"); ("X-Freepik-API-Key", API_KEY)]
            (mkParams "en-US" page limit query).

End Client.

(** *** Vocabulary for the properties below *)

Definition is_dict (o : json) : bool :=
  match o with JObj _ => true | _ => false end.

(** The line printed for a resource: its [id], [title] and [url], [None]
    for a key it lacks. *)
Definition summary (res : json) : msg :=
  match res with
  | JObj d =>
      let field k := match dict_get d k with Some v => v | None => JNull end in
      Resource (field "id") (field "title") (field "url")
  | _ => Resource JNull JNull JNull
  end.

(** In the words of the specification: the result summary of a resource,
    its [id], [title] and [url] and nothing else.  The source builds no
    such value; it is here to be compared with what [search_resources]
    returns. *)
Definition result_summary (res : json) : json :=
  let field k := match py_get res k with Ret v => v | Raise _ => JNull end in
  JObj [("id", field "id"); ("title", field "title"); ("url", field "url")].

(** A network that is down, and one that answers every request with [r]. *)
Definition offline : Request -> outcome Response := fun _ => Raise ConnectionError.
Definition serving (r : Response) : Request -> outcome Response := fun _ => Ret r.

Definition idle : World := mkWorld [] [].

(** Two resources as the service lists them, and answers that carry them,
    nothing, and an error. *)
Definition kite : json :=
  JObj [("id", JNum 7); ("title", JStr "Red kite"); ("url", JStr "https://fp/7");
        ("licenses", JArr [])].
Definition owl : json :=
  JObj [("id", JNum 9); ("title", JStr "Barn owl"); ("url", JStr "https://fp/9")].
Definition two_hits : Response :=
  mkResponse 200 "(body)" (Some (JObj [("data", JArr [kite; owl])])).
Definition no_hits : Response :=
  mkResponse 200 "(body)" (Some (JObj [("data", JArr [])])).
Definition unauthorized : Response :=
  mkResponse 401 "Invalid API key" (Some (JObj [("message", JStr "Invalid API key")])).

End Freepik.

(** ** The scripts around the two modules *)

(** The lines a script prints itself are kept on a console of their own,
    beside the world of the functions it calls: on every path a process
    prints either its own lines or those of the function it calls, never
    both, so no order is lost. *)

Module ImagenScript.
Import Imagen.

Inductive notice : Type :=
| UsageHelp.

(** The four client-library calls of a complete generation, in order. *)
Definition full_run (prompt output_path : string) : list call :=
  [VertexInit PROJECT_ID LOCATION; FromPretrained MODEL_ID;
   GenerateImages prompt 1; ImageSave output_path].

(** What [generate_image] does once the gate has allowed the request. *)
Definition after_admission {text} (sdk : Sdk) (prompt output_path : string)
  : M (World text) string :=
  setenv "GOOGLE_APPLICATION_CREDENTIALS" CREDENTIALS_FILE ;;;
  if negb (installed sdk) then
    print SdkMissing ;;; print SdkInstallHint ;;; raise (SystemExit 1)
  else
    print (Initializing PROJECT_ID) ;;;
    external sdk (VertexInit PROJECT_ID LOCATION) ;;;
    print (Generating (substring 0 50 prompt)) ;;;
    external sdk (FromPretrained MODEL_ID) ;;;
    external sdk (GenerateImages prompt 1) ;;;
    match images_for sdk prompt with
    | O => raise IndexError
    | S _ =>
        external sdk (ImageSave output_path) ;;;
        print (ImageSaved output_path) ;;;
        ret output_path
    end.

Section Script.

Variable text : Type.
Variable json_loads : text -> option json.
Variable json_dumps : json -> text.
Variable MONTHLY_CAP : Z.
Variable sdk : Sdk.

Record Process : Type := mkProcess {
  world : World text;
  notices : list notice
}.

(** The [__main__] block; [argv] is [sys.argv], the script's name first.
    The value [generate_image] returns is dropped. *)
Definition script (argv : list string) (now : string) : M Process unit :=
  fun p =>
    match argv with
    | _ :: user_prompt :: rest =>
        let out_path := match rest with o :: _ => o | [] => "output.png" end in
        match generate_image json_loads json_dumps MONTHLY_CAP sdk
                now user_prompt out_path (world p) with
        | (Ret _, w') => (Ret tt, mkProcess w' (notices p))
        | (Raise e, w') => (Raise e, mkProcess w' (notices p))
        end
    | _ => (Raise (SystemExit 1), mkProcess (world p) (notices p ++ [UsageHelp]))
    end.

End Script.

Arguments mkProcess {text}.
Arguments world {text}.
Arguments notices {text}.
Arguments script {text}.

(** Client libraries: not installed; installed but returning no image. *)
Definition absent_sdk : Sdk := mkSdk false (fun _ => false) (fun _ => 1%nat).
Definition empty_handed_sdk : Sdk := mkSdk true (fun _ => false) (fun _ => 0%nat).

(** A usage record of January 2025 that carries a note besides. *)
Definition annotated : json :=
  JObj [("month", JStr "2025-01"); ("note", JStr "trial"); ("count", JNum 3)].

End ImagenScript.

Module FreepikScript.
Import Freepik.

Inductive notice : Type :=
| DotenvMissing
| CredentialsMissing
| KeyMissing
| DownloadNotImplemented (resource_id : string)
| DownloadByHand
| Help.

(** [os.environ.get(k)]. *)
Fixpoint getenv (env : list (string * string)) (k : string) : option string :=
  match env with
  | [] => None
  | (k', v) :: env' => if String.eqb k' k then Some v else getenv env' k
  end.

(** What the module finds when it is loaded: whether [python-dotenv] can be
    imported, the text of [master_keys.env] ([None]: no such file) and the
    environment of the process. *)
Record Host (keys : Type) : Type := mkHost {
  dotenv_installed : bool;
  master_keys : option keys;
  os_environ : list (string * string)
}.
Arguments mkHost {keys}.
Arguments dotenv_installed {keys}.
Arguments master_keys {keys}.
Arguments os_environ {keys}.

(** What [argparse] hands to [main]: each option is its string, or [None]
    when it was not given. *)
Record Args : Type := mkArgs {
  search : option string;
  download : option string
}.

(** Truth of an optional str: [None] and the empty str are false. *)
Definition truthy (o : option string) : bool :=
  match o with
  | Some s => negb (String.eqb s "")
  | None => false
  end.

(** [world]: the network and console of [search_resources].
    [download_dir]: whether [DOWNLOAD_DIR] exists. *)
Record Process : Type := mkProcess {
  world : World;
  notices : list notice;
  download_dir : bool
}.

Definition say (n : notice) : M Process unit :=
  fun p => (Ret tt, mkProcess (world p) (notices p ++ [n]) (download_dir p)).

(** A function of the client run inside the process. *)
Definition within {A} (c : M World A) : M Process A :=
  fun p => match c (world p) with
           | (r, w') => (r, mkProcess w' (notices p) (download_dir p))
           end.

Definition download_resource (resource_id : string) : M Process unit :=
  say (DownloadNotImplemented resource_id) ;;;
  say DownloadByHand.

Section Script.

(** The text of the keys file, and [load_dotenv]: the environment once the
    file has been read into it. *)
Variable keys : Type.
Variable load_dotenv : keys -> list (string * string) -> list (string * string).

Variable network : Request -> outcome Response.

(** The statements run when the module is loaded, up to [API_KEY];
    [requests] is taken to be installed. *)
Definition startup (h : Host keys) : M Process string :=
  if negb (dotenv_installed h) then
    say DotenvMissing ;;; raise (SystemExit 1)
  else
    match master_keys h with
    | None => say CredentialsMissing ;;; raise (SystemExit 1)
    | Some file =>
        let env := load_dotenv file (os_environ h) in
        let API_KEY := getenv env "FREEPIK_API_KEY" in
        if negb (truthy API_KEY) then say KeyMissing ;;; raise (SystemExit 1)
        else ret (match API_KEY with Some k => k | None => "" end)
    end.

(** [search_resources(args.search)] takes the defaults [limit=5],
    [page=1]; its result is dropped. *)
Definition main (API_KEY : string) (args : Args) : M Process unit :=
  if truthy (search args) then
    within (search_resources API_KEY network
              (match search args with Some q => q | None => "" end) 5 1) ;;;
    ret tt
  else if truthy (download args) then
    download_resource (match download args with Some i => i | None => "" end)
  else
    say Help.

(** [DOWNLOAD_DIR.mkdir(parents=True, exist_ok=True)], taken to succeed. *)
Definition make_download_dir : M Process unit :=
  fun p => (Ret tt, mkProcess (world p) (notices p) true).

(** The whole script: the module is loaded, then the [__main__] block.
    [args] is what [parser.parse_args()] returns inside [main]; a command
    line that [argparse] rejects is not covered. *)
Definition script (h : Host keys) (args : Args) : M Process unit :=
  API_KEY <- startup h ;;
  exists_already <- (fun p => (Ret (download_dir p), p)) ;;
  (if negb exists_already then make_download_dir else ret tt) ;;;
  main API_KEY args.

End Script.

Arguments startup {keys}.
Arguments script {keys}.

(** A process that has done nothing yet, on a disk without [DOWNLOAD_DIR]. *)
Definition fresh : Process := mkProcess idle [] false.

(** Answers of the wrong shape: a body that is a list, and a result list
    whose second item is a string. *)
Definition bare_list : Response :=
  mkResponse 200 "(body)" (Some (JArr [kite])).
Definition mixed_hits : Response :=
  mkResponse 200 "(body)" (Some (JObj [("data", JArr [kite; JStr "owl"; owl])])).

(** A host whose keys file sets an empty key. *)
Definition empty_key_host : Host (list (string * string)) :=
  mkHost true (Some [("FREEPIK_API_KEY", "")]) [].

(** A keys file seen as the variables it sets, read without overriding
    what the environment already has. *)
Definition keep_existing (file env : list (string * string))
  : list (string * string) := (env ++ file)%list.

End FreepikScript.

(** ** Properties of the quota gate and the generator *)

Module ImagenSpec.
Import Imagen.

Lemma dict_get_set_same d k v : dict_get (dict_set d k v) k = Some v.
Proof.
  induction d as [|[k' v'] d IH]; simpl.
  - now rewrite String.eqb_refl.
  - destruct (String.eqb k' k) eqn:E; simpl; rewrite E; auto.
Qed.

Lemma dict_get_set_other d k k' v :
  k <> k' -> dict_get (dict_set d k v) k' = dict_get d k'.
Proof.
  intros Hne. induction d as [|[k0 v0] d IH]; simpl.
  - destruct (String.eqb_spec k k'); [contradiction | reflexivity].
  - destruct (String.eqb_spec k0 k) as [->|Hk]; simpl.
    + destruct (String.eqb_spec k k'); [contradiction | reflexivity].
    + destruct (String.eqb k0 k'); auto.
Qed.

Lemma py_ne_str_false o s : py_ne_str o s = false <-> o = JStr s.
Proof.
  split.
  - destruct o; simpl; try discriminate. intros H.
    apply negb_false_iff, String.eqb_eq in H. now subst.
  - intros ->. simpl. now rewrite String.eqb_refl.
Qed.

Section Gate.

Context {text : Type}.
Variable json_loads : text -> option json.
Variable json_dumps : json -> text.
Variable cap : Z.

Local Abbreviation gate := (check_and_increment_usage json_loads json_dumps cap).
Local Abbreviation load := (load_usage json_loads).
Local Abbreviation dumps := json_dumps.
Local Abbreviation run := (run_gate json_loads json_dumps cap).
Local Abbreviation reserved := (Imagen.reserved json_dumps cap).
Local Abbreviation refused := (Imagen.refused cap).
Local Abbreviation after_load := (Imagen.after_load json_dumps cap).
Local Abbreviation holds := (Imagen.holds json_dumps).
Local Abbreviation records := (Imagen.records json_dumps).
Local Abbreviation count_not_negative := (Imagen.count_not_negative json_loads).


Lemma gate_after_load now w :
  gate now w =
  match usage_file w with
  | None => after_load now (usage_record now 0) w
  | Some t => match json_loads t with
              | Some usage => after_load now usage w
              | None => (Raise JSONDecodeError, w)
              end
  end.
Proof.
  unfold check_and_increment_usage, bind at 1, load_usage.
  assert (K : forall usage,
    (stored_month <- lift (py_get usage "month") ;;
     (let usage0 := if py_ne_str stored_month now
                    then usage_record now 0 else usage in
      count <- lift (py_getitem usage0 "count") ;;
      reached <- lift (py_ge_int count cap) ;;
      (if reached : bool
       then print (CapReached cap) ;;; print (CurrentUsage count cap) ;;; ret false
       else count' <- lift (py_add_int count 1) ;;
            usage' <- lift (py_setitem usage0 "count" count') ;;
            save_usage json_dumps usage' ;;;
            print (UsageNow count' cap) ;;; ret true))) w
    = after_load now usage w).
  { intros usage. unfold after_load, bind, lift.
    destruct usage; simpl; try reflexivity.
    set (sm := match dict_get items "month" with Some v => v | None => JNull end).
    destruct (py_ne_str sm now); simpl.
    - unfold py_ge_int, py_add_int. simpl.
      destruct (cap <=? 0); [|reflexivity].
      unfold refused, ret, print; simpl. now rewrite <- app_assoc.
    - destruct (dict_get items "count") as [c|]; [|reflexivity].
      unfold py_ge_int, py_add_int.
      destruct (py_int c) as [n|e]; [|reflexivity].
      destruct (cap <=? n); [|reflexivity].
      unfold refused, ret, print; simpl. now rewrite <- app_assoc. }
  destruct (usage_file w) as [t|]; [destruct (json_loads t) as [usage|]|];
    try apply K; reflexivity.
Qed.

(** *** One call of the gate, case by case *)

Lemma gate_missing now w :
  usage_file w = None ->
  gate now w = if cap <=? 0 then (Ret false, refused w (JNum 0))
               else (Ret true, reserved w (usage_record now 1) (JNum 1)).
Proof.
  intros Hf. rewrite gate_after_load, Hf. unfold after_load, usage_record.
  simpl. rewrite String.eqb_refl. simpl. reflexivity.
Qed.

Lemma gate_stale now w t d :
  usage_file w = Some t -> json_loads t = Some (JObj d) ->
  dict_get d "month" <> Some (JStr now) ->
  gate now w = if cap <=? 0 then (Ret false, refused w (JNum 0))
               else (Ret true, reserved w (usage_record now 1) (JNum 1)).
Proof.
  intros Hf Hl Hm. rewrite gate_after_load, Hf, Hl. unfold after_load.
  assert (Hne : py_ne_str (match dict_get d "month" with
                           | Some v => v | None => JNull end) now = true).
  { destruct (py_ne_str _ now) eqn:E; [reflexivity|].
    apply py_ne_str_false in E. destruct (dict_get d "month"); [|discriminate].
    subst. now elim Hm. }
  rewrite Hne. simpl. reflexivity.
Qed.

Lemma gate_current now w t d c n :
  usage_file w = Some t -> json_loads t = Some (JObj d) ->
  dict_get d "month" = Some (JStr now) ->
  dict_get d "count" = Some c -> py_int c = Ret n ->
  gate now w =
  if cap <=? n then (Ret false, refused w c)
  else (Ret true,
        reserved w (JObj (dict_set d "count" (JNum (n + 1)))) (JNum (n + 1))).
Proof.
  intros Hf Hl Hm Hc Hn. rewrite gate_after_load, Hf, Hl. unfold after_load.
  rewrite Hm. simpl. rewrite String.eqb_refl. simpl. rewrite Hc, Hn.
  reflexivity.
Qed.


Hypothesis loads_dumps : forall v, json_loads (json_dumps v) = Some v.

Lemma gate_holds now w c :
  holds w now c ->
  gate now w = if cap <=? c then (Ret false, refused w (JNum c))
               else (Ret true, reserved w (usage_record now (c + 1)) (JNum (c + 1))).
Proof.
  intros [Hf | [-> Hf]].
  - rewrite (gate_current now w _ _ (JNum c) c Hf (loads_dumps _));
      reflexivity.
  - now apply gate_missing.
Qed.

Lemma load_holds now w c :
  holds w now c -> load now w = (Ret (usage_record now c), w).
Proof.
  unfold load_usage. intros [Hf | [-> Hf]]; rewrite Hf; [|reflexivity].
  now rewrite loads_dumps.
Qed.

(** *** Runs of calls in one month *)


Lemma records_S now c k :
  records now c (S k) = dumps (usage_record now (c + 1)) :: records now (c + 1) k.
Proof.
  unfold records. simpl. f_equal. rewrite <- seq_shift, map_map.
  apply map_ext. intros i.
  now replace (c + Z.of_nat (S i)) with (c + 1 + Z.of_nat i) by lia.
Qed.

Lemma run_gate_cons m l w :
  run_gate json_loads json_dumps cap (m :: l) w =
  match gate m w with
  | (Ret b, w1) =>
      match run_gate json_loads json_dumps cap l w1 with
      | (Ret bs, w2) => (Ret (b :: bs), w2)
      | (Raise e, w2) => (Raise e, w2)
      end
  | (Raise e, w1) => (Raise e, w1)
  end.
Proof. reflexivity. Qed.

Lemma run_gate_within now k : forall w c,
  holds w now c -> c + Z.of_nat k <= cap ->
  fst (run_gate json_loads json_dumps cap (repeat now k) w) = Ret (repeat true k)
  /\ holds (snd (run_gate json_loads json_dumps cap (repeat now k) w)) now
           (c + Z.of_nat k)
  /\ writes (snd (run_gate json_loads json_dumps cap (repeat now k) w))
     = (writes w ++ records now c k)%list.
Proof.
  induction k as [|k IH]; intros w c Hw Hle.
  - simpl. rewrite Z.add_0_r, app_nil_r. auto.
  - change (repeat now (S k)) with (now :: repeat now k).
    rewrite run_gate_cons, (gate_holds now w c Hw).
    destruct (Z.leb_spec cap c) as [Hge|Hlt]; [lia|].
    set (w1 := reserved w (usage_record now (c + 1)) (JNum (c + 1))).
    assert (H1 : holds w1 now (c + 1)) by (left; reflexivity).
    destruct (IH w1 (c + 1) H1 ltac:(lia)) as (Hr & Hh & Hwr).
    destruct (run_gate json_loads json_dumps cap (repeat now k) w1) as [[bs|e] w2];
      simpl in Hr, Hh, Hwr; try discriminate.
    injection Hr as ->. cbn [fst snd repeat]. repeat split.
    + replace (c + Z.of_nat (S k)) with (c + 1 + Z.of_nat k) by lia.
      exact Hh.
    + rewrite Hwr, records_S. subst w1. simpl. now rewrite <- app_assoc.
Qed.

Lemma run_gate_exhausted now k : forall w c,
  holds w now c -> cap <= c ->
  fst (run_gate json_loads json_dumps cap (repeat now k) w) = Ret (repeat false k)
  /\ usage_file (snd (run_gate json_loads json_dumps cap (repeat now k) w))
     = usage_file w
  /\ writes (snd (run_gate json_loads json_dumps cap (repeat now k) w)) = writes w.
Proof.
  induction k as [|k IH]; intros w c Hw Hge.
  - simpl. auto.
  - change (repeat now (S k)) with (now :: repeat now k).
    rewrite run_gate_cons, (gate_holds now w c Hw).
    destruct (Z.leb_spec cap c) as [_|Hlt]; [|lia].
    assert (H1 : holds (refused w (JNum c)) now c) by exact Hw.
    destruct (IH _ c H1 Hge) as (Hr & Hf & Hwr).
    destruct (run_gate json_loads json_dumps cap (repeat now k) (refused w (JNum c)))
      as [[bs|e] w2]; simpl in Hr, Hf, Hwr; try discriminate.
    injection Hr as ->. cbn [fst snd repeat]. auto.
Qed.

Lemma run_gate_app l1 : forall l2 w,
  run_gate json_loads json_dumps cap (l1 ++ l2) w =
  match run_gate json_loads json_dumps cap l1 w with
  | (Ret bs1, w1) =>
      match run_gate json_loads json_dumps cap l2 w1 with
      | (Ret bs2, w2) => (Ret (bs1 ++ bs2)%list, w2)
      | (Raise e, w2) => (Raise e, w2)
      end
  | (Raise e, w1) => (Raise e, w1)
  end.
Proof.
  induction l1 as [|m l1 IH]; intros l2 w.
  - simpl. unfold ret. destruct (run_gate _ _ _ l2 w) as [[bs|e] w2]; reflexivity.
  - change ((m :: l1) ++ l2)%list with (m :: (l1 ++ l2))%list.
    rewrite !run_gate_cons.
    destruct (gate m w) as [[b|e] w1]; [|reflexivity].
    rewrite IH.
    destruct (run_gate _ _ _ l1 w1) as [[bs1|e] w2]; [|reflexivity].
    destruct (run_gate _ _ _ l2 w2) as [[bs2|e] w3]; reflexivity.
Qed.

(** C1: from no usage file, [N] calls in one month with [N] at most the cap
    are all allowed, and the usage then stored is [{month: now, count: N}]
    (as [load_usage] reads it; for [N >= 1] it is the text of the file). *)
Theorem calls_within_cap_all_allowed now (N : nat) w0 :
  usage_file w0 = None -> Z.of_nat N <= cap ->
  fst (run (repeat now N) w0) = Ret (repeat true N)
  /\ fst (load now (snd (run (repeat now N) w0)))
     = Ret (usage_record now (Z.of_nat N))
  /\ (N <> 0%nat ->
      usage_file (snd (run (repeat now N) w0))
      = Some (dumps (usage_record now (Z.of_nat N)))).
Proof.
  intros Hf Hle.
  assert (H0 : holds w0 now 0) by (right; auto).
  destruct (run_gate_within now N w0 0 H0 ltac:(lia)) as (Hr & Hh & _).
  simpl in Hh. split; [exact Hr|]. split.
  - now rewrite (load_holds _ _ _ Hh).
  - intros HN. destruct Hh as [Hs | [HZ _]]; [exact Hs | lia].
Qed.

Lemma gate_allowed_inv now w w' :
  gate now w = (Ret true, w') ->
  exists d n,
    w' = reserved w (JObj d) (JNum (n + 1))
    /\ dict_get d "month" = Some (JStr now)
    /\ dict_get d "count" = Some (JNum (n + 1))
    /\ n < cap
    /\ (n = 0 \/
        exists t d0 c, usage_file w = Some t /\ json_loads t = Some (JObj d0)
                       /\ dict_get d0 "count" = Some c /\ py_int c = Ret n).
Proof.
  rewrite gate_after_load.
  assert (K : forall usage,
    (usage = usage_record now 0 \/
     exists t, usage_file w = Some t /\ json_loads t = Some usage) ->
    after_load now usage w = (Ret true, w') ->
    exists d n,
      w' = reserved w (JObj d) (JNum (n + 1))
      /\ dict_get d "month" = Some (JStr now)
      /\ dict_get d "count" = Some (JNum (n + 1))
      /\ n < cap
      /\ (n = 0 \/
          exists t d0 c, usage_file w = Some t /\ json_loads t = Some (JObj d0)
                         /\ dict_get d0 "count" = Some c /\ py_int c = Ret n)).
  { intros usage Hsrc. unfold after_load.
    destruct usage as [| | | |?|d]; try discriminate.
    set (sm := match dict_get d "month" with Some v => v | None => JNull end).
    destruct (py_ne_str sm now) eqn:Ene.
    - simpl. destruct (Z.leb_spec cap 0); [discriminate|].
      intros [= <-]. exists [("month", JStr now); ("count", JNum 1)], 0.
      simpl. auto 6.
    - apply py_ne_str_false in Ene.
      assert (Hm : dict_get d "month" = Some (JStr now)).
      { subst sm. destruct (dict_get d "month"); [now subst | discriminate]. }
      destruct (dict_get d "count") as [c|] eqn:Hc; [|discriminate].
      destruct (py_int c) as [n|e] eqn:Hn; [|discriminate].
      destruct (Z.leb_spec cap n); [discriminate|].
      intros [= <-]. exists (dict_set d "count" (JNum (n + 1))), n.
      rewrite dict_get_set_same, dict_get_set_other by discriminate.
      repeat split; auto.
      destruct Hsrc as [Hu | (t & Ht & Hl)].
      + injection Hu as ->. simpl in Hc. injection Hc as <-.
        simpl in Hn. injection Hn as <-. now left.
      + right. now exists t, d, c. }
  destruct (usage_file w) as [t|] eqn:Hf.
  - destruct (json_loads t) as [usage|] eqn:Hl; [|discriminate].
    apply K. right. now exists t.
  - apply K. now left.
Qed.

Lemma gate_denied_inv now w w' :
  gate now w = (Ret false, w') -> exists c, w' = refused w c.
Proof.
  rewrite gate_after_load.
  assert (K : forall usage,
    after_load now usage w = (Ret false, w') -> exists c, w' = refused w c).
  { intros usage. unfold after_load.
    destruct usage as [| | | |?|d]; try discriminate.
    destruct (dict_get _ "count") as [c|]; [|discriminate].
    destruct (py_int c) as [n|e]; [|discriminate].
    destruct (cap <=? n); [|discriminate].
    intros [= <-]. now exists c. }
  destruct (usage_file w) as [t|]; [destruct (json_loads t)|];
    try discriminate; apply K.
Qed.

(** The record stored after [k] calls in one month, from no usage file. *)
Lemma stored_after_calls now (k : nat) w0 :
  0 < cap -> usage_file w0 = None ->
  fst (load now (snd (run (repeat now k) w0)))
  = Ret (usage_record now (Z.min (Z.of_nat k) cap)).
Proof.
  intros Hpos Hf.
  assert (H0 : holds w0 now 0) by (right; auto).
  destruct (Z.le_gt_cases (Z.of_nat k) cap) as [Hle | Hgt].
  - destruct (run_gate_within now k w0 0 H0 ltac:(lia)) as (_ & Hh & _).
    simpl in Hh. rewrite (load_holds _ _ _ Hh). now rewrite Z.min_l.
  - assert (Hsplit : repeat now k
                     = (repeat now (Z.to_nat cap)
                        ++ repeat now (k - Z.to_nat cap))%list).
    { rewrite <- repeat_app. f_equal. lia. }
    destruct (run_gate_within now (Z.to_nat cap) w0 0 H0 ltac:(lia))
      as (Hr & Hh & _).
    rewrite Hsplit, run_gate_app.
    destruct (run (repeat now (Z.to_nat cap)) w0) as [[bs1|e] w1];
      simpl in Hr, Hh; try discriminate.
    replace (Z.of_nat (Z.to_nat cap)) with cap in Hh by lia.
    destruct (run_gate_exhausted now (k - Z.to_nat cap) w1 cap Hh (Z.le_refl _))
      as (Hr2 & Hf2 & _).
    destruct (run (repeat now (k - Z.to_nat cap)) w1) as [[bs2|e] w2];
      simpl in Hr2, Hf2; try discriminate.
    cbn [snd].
    assert (Hh2 : holds w2 now cap).
    { destruct Hh as [Hs | [HZ _]]; [left; now rewrite Hf2 | lia]. }
    rewrite (load_holds _ _ _ Hh2). now rewrite Z.min_r by lia.
Qed.

(** C2: with a positive cap and more calls than the cap, from no usage
    file and in one month, exactly the first [cap] calls are allowed and the
    rest denied; the records written count 1 up to [cap], and the file ends
    at [{month: now, count: cap}].  After each of the calls the count
    stored is the number of calls made so far, capped at [cap]: it never
    exceeds the cap, and stays at the cap once it is reached. *)
Theorem calls_beyond_cap now (N : nat) w0 :
  0 < cap -> usage_file w0 = None -> cap < Z.of_nat N ->
  fst (run (repeat now N) w0)
  = Ret (repeat true (Z.to_nat cap) ++ repeat false (N - Z.to_nat cap))%list
  /\ usage_file (snd (run (repeat now N) w0))
     = Some (dumps (usage_record now cap))
  /\ writes (snd (run (repeat now N) w0))
     = (writes w0 ++ records now 0 (Z.to_nat cap))%list
  /\ (forall k, (k <= N)%nat ->
      fst (load now (snd (run (repeat now k) w0)))
      = Ret (usage_record now (Z.min (Z.of_nat k) cap))).
Proof.
  intros Hpos Hf HN.
  assert (H0 : holds w0 now 0) by (right; auto).
  split; [|split; [|split]].
  4: { intros k _. now apply stored_after_calls. }
  all: assert (Hsplit : repeat now N
                   = (repeat now (Z.to_nat cap) ++ repeat now (N - Z.to_nat cap))%list)
    by (rewrite <- repeat_app; f_equal; lia).
  all: destruct (run_gate_within now (Z.to_nat cap) w0 0 H0 ltac:(lia))
    as (Hr & Hh & Hw).
  all: rewrite Hsplit, run_gate_app.
  all: destruct (run (repeat now (Z.to_nat cap)) w0) as [[bs1|e] w1];
    simpl in Hr, Hh, Hw; try discriminate.
  all: injection Hr as ->.
  all: replace (Z.of_nat (Z.to_nat cap)) with cap in Hh by lia.
  all: destruct (run_gate_exhausted now (N - Z.to_nat cap) w1 cap Hh (Z.le_refl _))
    as (Hr2 & Hf2 & Hw2).
  all: destruct (run (repeat now (N - Z.to_nat cap)) w1) as [[bs2|e] w2];
    simpl in Hr2, Hf2, Hw2; try discriminate.
  all: injection Hr2 as ->; cbn [fst snd].
  - reflexivity.
  - rewrite Hf2. destruct Hh as [Hs | [HZ _]]; [exact Hs | lia].
  - now rewrite Hw2.
Qed.

Lemma gate_raise_inv now w w' e : gate now w = (Raise e, w') -> w' = w.
Proof.
  rewrite gate_after_load.
  assert (K : forall usage, after_load now usage w = (Raise e, w') -> w' = w).
  { intros usage. unfold after_load.
    destruct usage as [| | | |?|d]; try congruence.
    destruct (dict_get _ "count") as [c|]; [|congruence].
    destruct (py_int c) as [n|e']; [|congruence].
    destruct (cap <=? n); discriminate. }
  destruct (usage_file w) as [t|]; [destruct (json_loads t)|];
    try apply K; congruence.
Qed.

(** C4: with a positive cap, a call that finds a stored dict whose month is
    not the current one (whatever its count and other fields) is allowed,
    and writes exactly [{month: now, count: 1}]. *)
Theorem stale_record_is_reset now w t d :
  0 < cap ->
  usage_file w = Some t -> json_loads t = Some (JObj d) ->
  dict_get d "month" <> Some (JStr now) ->
  fst (gate now w) = Ret true
  /\ usage_file (snd (gate now w)) = Some (dumps (usage_record now 1))
  /\ writes (snd (gate now w)) = (writes w ++ [dumps (usage_record now 1)])%list.
Proof.
  intros Hpos Hf Hl Hm. rewrite (gate_stale now w t d Hf Hl Hm).
  destruct (Z.leb_spec cap 0); [lia|]. simpl. auto.
Qed.

(** C5: a call that finds a stored dict for the current month whose count
    is at least the cap returns [False] and does not call [save_usage]: the
    file and the list of writes are as before, only two lines are printed. *)
Theorem denial_leaves_store_untouched now w t d c n :
  usage_file w = Some t -> json_loads t = Some (JObj d) ->
  dict_get d "month" = Some (JStr now) ->
  dict_get d "count" = Some c -> py_int c = Ret n -> cap <= n ->
  gate now w = (Ret false, refused w c)
  /\ usage_file (snd (gate now w)) = usage_file w
  /\ writes (snd (gate now w)) = writes w.
Proof.
  intros Hf Hl Hm Hc Hn Hge. rewrite (gate_current now w t d c n Hf Hl Hm Hc Hn).
  destruct (Z.leb_spec cap n); [|lia]. simpl. auto.
Qed.

(** C7: [load_usage] returns the default [{month: now, count: 0}] when the
    file does not exist; when the file exists and its text does not decode
    it raises [JSONDecodeError]; and a text that decodes is returned as
    decoded, never replaced by the default. *)
Theorem load_usage_missing_or_corrupt now w :
  (usage_file w = None -> load now w = (Ret (usage_record now 0), w))
  /\ (forall t, usage_file w = Some t -> json_loads t = None ->
      load now w = (Raise JSONDecodeError, w))
  /\ (forall t usage, usage_file w = Some t -> json_loads t = Some usage ->
      load now w = (Ret usage, w)).
Proof.
  unfold load_usage. repeat split.
  - now intros ->.
  - now intros t -> ->.
  - now intros t usage -> ->.
Qed.

(** C10, as amended: a call writes at most one record, and a record it
    writes is for the current month.  Provided the count stored before the
    call, if there is one, is an integer that is not negative (as for an
    absent file, and as every call keeps it), the count written is an
    integer of at least 1.  A stored negative count is not covered: it is
    incremented and written back as it is. *)
Theorem gate_writes_current_month_positive now w :
  (count_not_negative w = true ->
   count_not_negative (snd (gate now w)) = true)
  /\ (writes (snd (gate now w)) = writes w
      \/ exists d,
           writes (snd (gate now w)) = (writes w ++ [dumps (JObj d)])%list
           /\ usage_file (snd (gate now w)) = Some (dumps (JObj d))
           /\ dict_get d "month" = Some (JStr now)
           /\ (count_not_negative w = true ->
               exists n, dict_get d "count" = Some (JNum n) /\ 1 <= n)).
Proof.
  destruct (gate now w) as [[[|]|e] w'] eqn:Hg; cbn [fst snd].
  - destruct (gate_allowed_inv now w w' Hg) as (d & n & -> & Hm & Hc & _ & Hprior).
    assert (Hn : count_not_negative w = true -> 0 <= n).
    { intros Hwf.
      destruct Hprior as [-> | (t & d0 & c & Hf & Hl & Hc0 & Hi)]; [lia|].
      unfold Imagen.count_not_negative in Hwf. rewrite Hf, Hl, Hc0, Hi in Hwf.
      now apply Z.leb_le. }
    split.
    + intros Hwf. unfold Imagen.count_not_negative, Imagen.reserved.
      cbn [usage_file]. rewrite loads_dumps, Hc. simpl. apply Z.leb_le.
      specialize (Hn Hwf). lia.
    + right. exists d. do 3 (split; [auto|]).
      intros Hwf. exists (n + 1). split; [exact Hc|].
      specialize (Hn Hwf). lia.
  - destruct (gate_denied_inv now w w' Hg) as (c & ->). split; [auto | now left].
  - rewrite (gate_raise_inv now w w' e Hg). split; [auto | now left].
Qed.

(** *** A missing store against a stored zero *)

Lemma gate_zero_record now m w :
  usage_file w = Some (dumps (usage_record now 0)) ->
  gate m w = if cap <=? 0 then (Ret false, refused w (JNum 0))
             else (Ret true, reserved w (usage_record m 1) (JNum 1)).
Proof.
  intros Hf. destruct (String.eqb_spec m now) as [->|Hne].
  - apply (gate_holds now w 0). now left.
  - apply (gate_stale m w _ _ Hf (loads_dumps _)).
    simpl. intros [= E]. now apply Hne.
Qed.

Lemma run_gate_missing_or_zero now ms : forall w1 w2,
  usage_file w1 = None ->
  w2 = with_file w1 (dumps (usage_record now 0)) ->
  fst (run ms w1) = fst (run ms w2)
  /\ (snd (run ms w1) = snd (run ms w2)
      \/ (usage_file (snd (run ms w1)) = None
          /\ snd (run ms w2)
             = with_file (snd (run ms w1)) (dumps (usage_record now 0)))).
Proof.
  induction ms as [|m ms IH]; intros w1 w2 Hf ->.
  - simpl. auto.
  - rewrite !run_gate_cons, (gate_missing m w1 Hf),
      (gate_zero_record now m (with_file w1 _) eq_refl).
    destruct (cap <=? 0).
    + destruct (IH (refused w1 (JNum 0)) _ Hf eq_refl) as (Hr & Hs).
      change (refused (with_file w1 (dumps (usage_record now 0))) (JNum 0))
        with (with_file (refused w1 (JNum 0)) (dumps (usage_record now 0))).
      destruct (run ms (refused w1 (JNum 0))) as [[bs|e] u1];
        destruct (run ms (with_file (refused w1 (JNum 0)) _)) as [[bs'|e'] u2];
        simpl in Hr, Hs; try discriminate; injection Hr as ->; cbn [fst snd]; auto.
    + change (reserved (with_file w1 (dumps (usage_record now 0)))
                       (usage_record m 1) (JNum 1))
        with (reserved w1 (usage_record m 1) (JNum 1)).
      auto.
Qed.

(** C6: for every cap and every sequence of calls (one clock reading
    each), starting with no usage file and starting with a file that holds
    [{month: now, count: 0}] give the same decisions, the same writes and
    the same console output, and [load_usage] reads the same record in both
    final stores.  The two files are equal as soon as one call was allowed;
    until then they are the two initial ones. *)
Theorem missing_store_is_zero_record now ms w0 :
  usage_file w0 = None ->
  fst (run ms w0) = fst (run ms (with_file w0 (dumps (usage_record now 0))))
  /\ fst (load now (snd (run ms w0)))
     = fst (load now (snd (run ms (with_file w0 (dumps (usage_record now 0))))))
  /\ writes (snd (run ms w0))
     = writes (snd (run ms (with_file w0 (dumps (usage_record now 0)))))
  /\ stdout (snd (run ms w0))
     = stdout (snd (run ms (with_file w0 (dumps (usage_record now 0)))))
  /\ (usage_file (snd (run ms w0))
      = usage_file (snd (run ms (with_file w0 (dumps (usage_record now 0)))))
      \/ (usage_file (snd (run ms w0)) = None
          /\ usage_file (snd (run ms (with_file w0 (dumps (usage_record now 0)))))
             = Some (dumps (usage_record now 0))
          /\ forall bs, fst (run ms w0) = Ret bs -> Forall (eq false) bs)).
Proof.
  intros Hf.
  destruct (run_gate_missing_or_zero now ms w0 _ Hf eq_refl) as (Hr & [Hs | [Hn Hs]]).
  - rewrite <- Hs. auto 6.
  - rewrite Hs. unfold load_usage at 1 2. rewrite Hn. cbn [usage_file with_file].
    rewrite loads_dumps. repeat split; auto.
    right. repeat split; auto.
    clear Hr Hs. revert w0 Hf Hn.
    induction ms as [|m ms IH]; intros w0 Hf Hn bs.
    + simpl. intros [= <-]. constructor.
    + rewrite run_gate_cons, (gate_missing m w0 Hf) in Hn |- *.
      destruct (cap <=? 0).
      * specialize (IH (refused w0 (JNum 0)) Hf).
        destruct (run ms (refused w0 (JNum 0))) as [[bs'|e] u]; [|discriminate].
        intros [= <-]. constructor; auto.
      * exfalso. revert Hn.
        assert (Hsome : forall l w, usage_file w <> None ->
                          usage_file (snd (run l w)) <> None).
        { clear. induction l as [|m' l IHl]; intros w Hw; [exact Hw|].
          rewrite run_gate_cons. destruct (gate m' w) as [[[|]|e] w'] eqn:Hg.
          - destruct (gate_allowed_inv m' w w' Hg) as (d & n & -> & _).
            specialize (IHl (reserved w (JObj d) (JNum (n + 1))) ltac:(discriminate)).
            destruct (run l _) as [[bs|e] u]; exact IHl.
          - destruct (gate_denied_inv m' w w' Hg) as (c & ->).
            specialize (IHl (refused w c) Hw).
            destruct (run l _) as [[bs|e] u]; exact IHl.
          - now rewrite (gate_raise_inv m' w w' e Hg). }
        specialize (Hsome ms (reserved w0 (usage_record m 1) (JNum 1)) ltac:(discriminate)).
        destruct (run ms _) as [[bs'|e] u]; exact Hsome.
Qed.

(** *** The generator *)

(** A usage file that does not decode stops a generation before anything
    else happens: the error of [json.load] leaves [generate_image], and the
    world is untouched. *)
Lemma corrupt_store_stops_generation sdk0 now prompt output_path w t :
  usage_file w = Some t -> json_loads t = None ->
  generate_image json_loads json_dumps cap sdk0 now prompt output_path w
  = (Raise JSONDecodeError, w).
Proof.
  intros Hf Hl. unfold generate_image, bind at 1.
  now rewrite gate_after_load, Hf, Hl.
Qed.

Variable sdk : Sdk.

(** C3: when the gate denies, [generate_image] exits with status 1 after
    the cap-reached lines; no client-library call is made, and the usage
    file, the writes and the environment are as before. *)
Theorem denied_request_makes_no_call now prompt output_path w :
  fst (check_and_increment_usage json_loads json_dumps cap now w) = Ret false ->
  fst (generate_image json_loads json_dumps cap sdk now prompt
            output_path w) = Raise (SystemExit 1)
  /\ calls (snd (generate_image json_loads json_dumps cap sdk now prompt
            output_path w)) = calls w
  /\ usage_file (snd (generate_image json_loads json_dumps cap sdk now prompt
            output_path w)) = usage_file w
  /\ writes (snd (generate_image json_loads json_dumps cap sdk now prompt
            output_path w)) = writes w
  /\ environ (snd (generate_image json_loads json_dumps cap sdk now prompt
            output_path w)) = environ w
  /\ exists count,
       stdout (snd (generate_image json_loads json_dumps cap sdk now prompt
            output_path w))
       = (stdout w ++ [CapReached cap; CurrentUsage count cap])%list.
Proof.
  intros Hd.
  destruct (gate now w) as [[b|e] w'] eqn:Hg; simpl in Hd; try discriminate.
  injection Hd as ->.
  assert (E : generate_image json_loads json_dumps cap sdk now prompt output_path w
              = (Raise (SystemExit 1), w')).
  { unfold generate_image, bind at 1. now rewrite Hg. }
  rewrite E. destruct (gate_denied_inv now w w' Hg) as (c & ->).
  simpl. do 5 (split; [reflexivity|]). now exists c.
Qed.

End Gate.

(** *** The properties at the scenarios of the specification *)

Lemma decoded_round_trip v : decoded_loads (decoded_dumps v) = Some v.
Proof. reflexivity. Qed.

Lemma calls_within_cap_all_allowed_scenario :
  usage_file first_run = None /\ Z.of_nat 2 <= 2
  /\ fst (run_at 2 ["2025-01"; "2025-01"] first_run) = Ret [true; true]
  /\ fst (load_usage decoded_loads "2025-01"
            (snd (run_at 2 ["2025-01"; "2025-01"] first_run)))
     = Ret (usage_record "2025-01" 2).
Proof.
  split; [reflexivity|]. split; [lia|].
  destruct (calls_within_cap_all_allowed decoded_loads decoded_dumps 2
              decoded_round_trip "2025-01" 2 first_run eq_refl ltac:(lia))
    as (H1 & H2 & _).
  split; [exact H1 | exact H2].
Defined.

Lemma calls_beyond_cap_scenario :
  0 < 2 /\ usage_file first_run = None /\ 2 < Z.of_nat 3
  /\ fst (run_at 2 ["2025-01"; "2025-01"; "2025-01"] first_run)
     = Ret [true; true; false]
  /\ usage_file (snd (run_at 2 ["2025-01"; "2025-01"; "2025-01"] first_run))
     = Some (Some (usage_record "2025-01" 2))
  /\ writes (snd (run_at 2 ["2025-01"; "2025-01"; "2025-01"] first_run))
     = [Some (usage_record "2025-01" 1); Some (usage_record "2025-01" 2)].
Proof.
  split; [lia|]. split; [reflexivity|]. split; [lia|].
  destruct (calls_beyond_cap decoded_loads decoded_dumps 2 decoded_round_trip
              "2025-01" 3 first_run ltac:(lia) eq_refl ltac:(lia))
    as (H1 & H2 & H3 & _).
  split; [exact H1|]. split; [exact H2 | exact H3].
Defined.

Lemma stale_record_is_reset_scenario :
  0 < 2
  /\ dict_get [("month", JStr "2024-12"); ("count", JNum 2)] "month"
     <> Some (JStr "2025-01")
  /\ fst (gate_at 2 "2025-01"
            (with_file first_run (Some (usage_record "2024-12" 2))))
     = Ret true
  /\ usage_file (snd (gate_at 2 "2025-01"
                        (with_file first_run (Some (usage_record "2024-12" 2)))))
     = Some (Some (usage_record "2025-01" 1)).
Proof.
  split; [lia|]. split; [discriminate|].
  destruct (stale_record_is_reset decoded_loads decoded_dumps 2 "2025-01"
              (with_file first_run (Some (usage_record "2024-12" 2)))
              (Some (usage_record "2024-12" 2))
              [("month", JStr "2024-12"); ("count", JNum 2)]
              ltac:(lia) eq_refl eq_refl ltac:(discriminate))
    as (H1 & H2 & _).
  split; [exact H1 | exact H2].
Defined.

Lemma denial_leaves_store_untouched_scenario :
  2 <= 2
  /\ fst (gate_at 2 "2025-01"
            (with_file first_run (Some (usage_record "2025-01" 2))))
     = Ret false
  /\ usage_file (snd (gate_at 2 "2025-01"
                        (with_file first_run (Some (usage_record "2025-01" 2)))))
     = Some (Some (usage_record "2025-01" 2))
  /\ writes (snd (gate_at 2 "2025-01"
                    (with_file first_run (Some (usage_record "2025-01" 2)))))
     = [].
Proof.
  split; [lia|].
  destruct (denial_leaves_store_untouched decoded_loads decoded_dumps 2 "2025-01"
              (with_file first_run (Some (usage_record "2025-01" 2)))
              (Some (usage_record "2025-01" 2))
              [("month", JStr "2025-01"); ("count", JNum 2)] (JNum 2) 2
              eq_refl eq_refl eq_refl eq_refl eq_refl ltac:(lia))
    as (H1 & H2 & H3).
  split; [exact (f_equal fst H1)|]. split; [exact H2 | exact H3].
Defined.

Lemma load_usage_missing_or_corrupt_scenario :
  load_usage decoded_loads "2025-01" first_run
  = (Ret (usage_record "2025-01" 0), first_run)
  /\ load_usage decoded_loads "2025-01" (with_file first_run None)
     = (Raise JSONDecodeError, with_file first_run None).
Proof.
  split.
  - exact (proj1 (load_usage_missing_or_corrupt decoded_loads "2025-01" first_run)
                 eq_refl).
  - exact (proj1 (proj2 (load_usage_missing_or_corrupt decoded_loads "2025-01"
                           (with_file first_run None)))
                 None eq_refl eq_refl).
Defined.

Lemma gate_writes_current_month_positive_scenario :
  count_not_negative decoded_loads
    (with_file first_run (Some (usage_record "2025-01" 1))) = true
  /\ writes (snd (gate_at 2 "2025-01"
                    (with_file first_run (Some (usage_record "2025-01" 1)))))
     = [Some (usage_record "2025-01" 2)]
  /\ count_not_negative decoded_loads
       (snd (gate_at 2 "2025-01"
               (with_file first_run (Some (usage_record "2025-01" 1))))) = true.
Proof.
  split; [reflexivity|]. split; [reflexivity|].
  exact (proj1 (gate_writes_current_month_positive decoded_loads decoded_dumps 2
                  decoded_round_trip "2025-01"
                  (with_file first_run (Some (usage_record "2025-01" 1))))
               eq_refl).
Defined.

(** A stored count of -1 for the current month: the call is allowed and
    the record written has count 0. *)
Lemma negative_count_is_written_back :
  fst (gate_at 2 "2025-01"
         (with_file first_run (Some (usage_record "2025-01" (-1))))) = Ret true
  /\ writes (snd (gate_at 2 "2025-01"
                    (with_file first_run (Some (usage_record "2025-01" (-1))))))
     = [Some (usage_record "2025-01" 0)]
  /\ usage_record "2025-01" 0
     = JObj [("month", JStr "2025-01"); ("count", JNum 0)]
  /\ ~ 1 <= 0.
Proof.
  split; [reflexivity|]. split; [reflexivity|]. split; [reflexivity | lia].
Qed.

Lemma missing_store_is_zero_record_scenario :
  usage_file first_run = None
  /\ fst (run_at 2 ["2025-01"; "2025-01"; "2025-02"] first_run)
     = fst (run_at 2 ["2025-01"; "2025-01"; "2025-02"]
              (with_file first_run (Some (usage_record "2025-01" 0))))
  /\ writes (snd (run_at 2 ["2025-01"; "2025-01"; "2025-02"] first_run))
     = writes (snd (run_at 2 ["2025-01"; "2025-01"; "2025-02"]
                      (with_file first_run (Some (usage_record "2025-01" 0))))).
Proof.
  split; [reflexivity|].
  destruct (missing_store_is_zero_record decoded_loads decoded_dumps 2
              decoded_round_trip "2025-01" ["2025-01"; "2025-01"; "2025-02"]
              first_run eq_refl)
    as (H1 & _ & H3 & _).
  split; [exact H1 | exact H3].
Defined.

Lemma denied_request_makes_no_call_scenario :
  fst (gate_at 2 "2025-01"
         (with_file first_run (Some (usage_record "2025-01" 2)))) = Ret false
  /\ fst (generate_image decoded_loads decoded_dumps 2 working_sdk
            "2025-01" "a red kite" "output.png"
            (with_file first_run (Some (usage_record "2025-01" 2))))
     = Raise (SystemExit 1)
  /\ calls (snd (generate_image decoded_loads decoded_dumps 2 working_sdk
                   "2025-01" "a red kite" "output.png"
                   (with_file first_run (Some (usage_record "2025-01" 2)))))
     = [].
Proof.
  split; [reflexivity|].
  destruct (denied_request_makes_no_call decoded_loads decoded_dumps 2 working_sdk
              "2025-01" "a red kite" "output.png"
              (with_file first_run (Some (usage_record "2025-01" 2))) eq_refl)
    as (H1 & H2 & _).
  split; [exact H1 | exact H2].
Defined.

Lemma corrupt_store_stops_generation_scenario :
  decoded_loads None = None
  /\ generate_image decoded_loads decoded_dumps MONTHLY_CAP working_sdk
       "2025-01" "a red kite" "output.png" (with_file first_run None)
     = (Raise JSONDecodeError, with_file first_run None).
Proof.
  split; [reflexivity|].
  exact (corrupt_store_stops_generation decoded_loads decoded_dumps MONTHLY_CAP
           working_sdk "2025-01" "a red kite" "output.png"
           (with_file first_run None) None eq_refl eq_refl).
Defined.

(** An admitted request reaches the client library: with the configured
    cap, a first run makes the four calls in order and returns the path. *)
Example generate_image_first_run :
  let r := generate_image decoded_loads decoded_dumps MONTHLY_CAP working_sdk
             "2025-01" "a red kite" "output.png" first_run in
  fst r = Ret "output.png"
  /\ calls (snd r) = [VertexInit PROJECT_ID LOCATION; FromPretrained MODEL_ID;
                      GenerateImages "a red kite" 1; ImageSave "output.png"]
  /\ usage_file (snd r) = Some (Some (usage_record "2025-01" 1)).
Proof. repeat split. Qed.

End ImagenSpec.

(** ** Properties of the search client *)

Module FreepikSpec.
Import Freepik.

Section Search.

Variable API_KEY : string.
Variable network : Request -> outcome Response.

Lemma print_resources_dicts items : forall w,
  forallb is_dict items = true ->
  print_resources items w
  = (Ret tt, mkWorld (requests w) (stdout w ++ map summary items)).
Proof.
  induction items as [|res items IH]; intros w Hd.
  - simpl. rewrite app_nil_r. now destruct w.
  - simpl in Hd. apply andb_true_iff in Hd as [Hres Hrest].
    destruct res; try discriminate.
    simpl. unfold bind, lift, print. simpl. rewrite (IH _ Hrest). simpl.
    now rewrite <- app_assoc.
Qed.

(** An HTTP error status is handled: a 4xx or 5xx answer is reported, with
    its body when there is one, and the search returns the empty list. *)
Lemma search_http_error_returns_empty query limit page w r :
  network (search_request API_KEY query limit page) = Ret r ->
  400 <= status_code r < 600 ->
  search_resources API_KEY network query limit page w
  = (Ret (JArr []),
     mkWorld (requests w ++ [search_request API_KEY query limit page])
             (stdout w ++ [Searching query; ApiError (HTTPError (status_code r))]
                ++ (if String.eqb (text r) "" then [] else [ResponseText (text r)]))).
Proof.
  intros Hnet Hst.
  unfold search_resources, try_except, bind, requests_get, print, lift,
    raise_for_status, on_request_exception.
  fold (search_request API_KEY query limit page). rewrite Hnet. simpl.
  replace ((400 <=? status_code r) && (status_code r <? 600)) with true
    by (symmetry; apply andb_true_iff; split; [apply Z.leb_le | apply Z.ltb_lt]; lia).
  simpl. unfold bind, print, ret. simpl.
  destruct (String.eqb (text r) ""); simpl; now rewrite <- !app_assoc.
Qed.

(** C8: when [requests.get] itself raises a [RequestException] (the
    connection fails, the request times out), the handler prints the error
    and then reads [response], which was never bound: the search raises
    [UnboundLocalError] instead of returning the empty list. *)
Theorem search_transport_failure_escapes query limit page w e :
  network (search_request API_KEY query limit page) = Raise e ->
  is_RequestException e = true ->
  search_resources API_KEY network query limit page w
  = (Raise (UnboundLocalError "response"),
     mkWorld (requests w ++ [search_request API_KEY query limit page])
             (stdout w ++ [Searching query; ApiError e])).
Proof.
  intros Hnet He.
  unfold search_resources, try_except, bind, requests_get, print,
    on_request_exception.
  fold (search_request API_KEY query limit page). rewrite Hnet. simpl. rewrite He.
  unfold bind, raise. simpl. now rewrite <- app_assoc.
Qed.

(** C9, as amended: for an answer that is not an HTTP error and whose body
    is a JSON object, with [data] a list of objects (or absent), the search
    returns that list as served (the resources themselves, with every
    field they carry, not reduced to [id], [title] and [url]) in the served
    order, after printing the count and one [id]/[title]/[url] line per
    item in the same order; it sends one request and raises nothing.  With
    no item the result is the empty list. *)
Theorem search_returns_served_items query limit page w r d items :
  network (search_request API_KEY query limit page) = Ret r ->
  raise_for_status r = Ret tt ->
  json_body r = Some (JObj d) ->
  match dict_get d "data" with Some v => v | None => JArr [] end = JArr items ->
  forallb is_dict items = true ->
  search_resources API_KEY network query limit page w
  = (Ret (JArr items),
     mkWorld (requests w ++ [search_request API_KEY query limit page])
             (stdout w ++ [Searching query; Found (Z.of_nat (List.length items))]
                ++ map summary items)).
Proof.
  intros Hnet Hst Hbody Hdata Hd.
  unfold search_resources, try_except, bind at 1 2, requests_get, print.
  fold (search_request API_KEY query limit page). rewrite Hnet. cbn [fst snd requests stdout].
  unfold bind, lift, response_json. rewrite Hst, Hbody. simpl.
  rewrite Hdata. simpl.
  rewrite print_resources_dicts by exact Hd. simpl.
  now rewrite <- !app_assoc.
Qed.

End Search.

Lemma search_transport_failure_escapes_scenario :
  offline (search_request "key" "cat" 5 1) = Raise ConnectionError
  /\ is_RequestException ConnectionError = true
  /\ search_resources "key" offline "cat" 5 1 idle
     = (Raise (UnboundLocalError "response"),
        mkWorld [search_request "key" "cat" 5 1]
                [Searching "cat"; ApiError ConnectionError]).
Proof.
  split; [reflexivity|]. split; [reflexivity|].
  exact (search_transport_failure_escapes "key" offline "cat" 5 1 idle
           ConnectionError eq_refl eq_refl).
Defined.

Lemma search_returns_served_items_scenario :
  serving two_hits (search_request "key" "bird" 5 1) = Ret two_hits
  /\ raise_for_status two_hits = Ret tt
  /\ forallb is_dict [kite; owl] = true
  /\ search_resources "key" (serving two_hits) "bird" 5 1 idle
     = (Ret (JArr [kite; owl]),
        mkWorld [search_request "key" "bird" 5 1]
                [Searching "bird"; Found 2;
                 Resource (JNum 7) (JStr "Red kite") (JStr "https://fp/7");
                 Resource (JNum 9) (JStr "Barn owl") (JStr "https://fp/9")]).
Proof.
  split; [reflexivity|]. split; [reflexivity|]. split; [reflexivity|].
  exact (search_returns_served_items "key" (serving two_hits) "bird" 5 1 idle
           two_hits [("data", JArr [kite; owl])] [kite; owl]
           eq_refl eq_refl eq_refl eq_refl eq_refl).
Defined.

Lemma search_http_error_returns_empty_scenario :
  serving unauthorized (search_request "key" "cat" 5 1) = Ret unauthorized
  /\ 400 <= status_code unauthorized < 600
  /\ search_resources "key" (serving unauthorized) "cat" 5 1 idle
     = (Ret (JArr []),
        mkWorld [search_request "key" "cat" 5 1]
                [Searching "cat"; ApiError (HTTPError 401);
                 ResponseText "Invalid API key"]).
Proof.
  split; [reflexivity|]. split; [simpl; lia|].
  exact (search_http_error_returns_empty "key" (serving unauthorized) "cat" 5 1
           idle unauthorized eq_refl ltac:(simpl; lia)).
Defined.

(** What is returned is not the list of summaries: a served resource keeps
    the fields it has besides [id], [title] and [url]. *)
Lemma search_returns_items_not_summaries :
  fst (search_resources "key" (serving two_hits) "bird" 5 1 idle)
  = Ret (JArr [kite; owl])
  /\ map result_summary [kite; owl]
     = [JObj [("id", JNum 7); ("title", JStr "Red kite"); ("url", JStr "https://fp/7")];
        owl]
  /\ fst (search_resources "key" (serving two_hits) "bird" 5 1 idle)
     <> Ret (JArr (map result_summary [kite; owl])).
Proof.
  split; [reflexivity|]. split; [reflexivity|]. discriminate.
Qed.

(** An answer with no item: the empty list, and no error. *)
Example search_no_hits :
  search_resources "key" (serving no_hits) "zzzz" 5 1 idle
  = (Ret (JArr []),
     mkWorld [search_request "key" "zzzz" 5 1] [Searching "zzzz"; Found 0]).
Proof. reflexivity. Qed.

End FreepikSpec.

(** ** Further behaviour of the quota gate and the generator *)

Module ImagenBehaviour.
Import Imagen ImagenScript ImagenSpec.

Lemma dict_set_keys d k v c :
  dict_get d k = Some c -> map fst (dict_set d k v) = map fst d.
Proof.
  induction d as [|[k' v'] d IH]; simpl; [discriminate|].
  destruct (String.eqb k' k); simpl; [reflexivity|].
  intros H. now rewrite IH.
Qed.

Section Gate.

Context {text : Type}.
Variable json_loads : text -> option json.
Variable json_dumps : json -> text.
Variable cap : Z.

Local Abbreviation gate := (check_and_increment_usage json_loads json_dumps cap).
Local Abbreviation run := (run_gate json_loads json_dumps cap).

(** One call of the gate is all or nothing.  It never touches the
    environment or the client library.  When it raises, the world is as it
    was; when it denies, the file and the writes are as they were; when it
    allows, it has written exactly one record, which is now the file. *)
Theorem gate_is_atomic now w :
  environ (snd (check_and_increment_usage json_loads json_dumps cap now w))
  = environ w
  /\ calls (snd (check_and_increment_usage json_loads json_dumps cap now w))
     = calls w
  /\ match fst (check_and_increment_usage json_loads json_dumps cap now w) with
     | Raise _ =>
         snd (check_and_increment_usage json_loads json_dumps cap now w) = w
     | Ret false =>
         usage_file (snd (check_and_increment_usage json_loads json_dumps cap now w))
         = usage_file w
         /\ writes (snd (check_and_increment_usage json_loads json_dumps cap now w))
            = writes w
     | Ret true =>
         exists t,
           usage_file (snd (check_and_increment_usage json_loads json_dumps cap now w))
           = Some t
           /\ writes (snd (check_and_increment_usage json_loads json_dumps cap now w))
              = (writes w ++ [t])%list
     end.
Proof.
  destruct (gate now w) as [[[|]|e] w'] eqn:Hg; cbn [fst snd].
  - destruct (gate_allowed_inv _ _ _ now w w' Hg) as (d & n & -> & _).
    simpl. repeat split. now exists (json_dumps (JObj d)).
  - destruct (gate_denied_inv _ _ _ now w w' Hg) as (c & ->). simpl. auto.
  - rewrite (gate_raise_inv _ _ _ now w w' e Hg). auto.
Qed.

(** A store of the current month that is not a usage record makes the
    gate raise, and nothing is written: [AttributeError] when the file
    decodes to something that is not a dict, [KeyError] when the dict has no
    [count], [TypeError] when the count is not a number. *)
Theorem malformed_store_raises now w t usage :
  usage_file w = Some t -> json_loads t = Some usage ->
  match usage with
  | JObj d =>
      dict_get d "month" = Some (JStr now) ->
      match dict_get d "count" with
      | None =>
          check_and_increment_usage json_loads json_dumps cap now w
          = (Raise (KeyError "count"), w)
      | Some c =>
          py_int c = Raise TypeError ->
          check_and_increment_usage json_loads json_dumps cap now w
          = (Raise TypeError, w)
      end
  | _ =>
      check_and_increment_usage json_loads json_dumps cap now w
      = (Raise AttributeError, w)
  end.
Proof.
  intros Hf Hl. rewrite gate_after_load, Hf, Hl. unfold after_load.
  destruct usage as [| | | |?|d]; try reflexivity.
  intros Hm. rewrite Hm. simpl. rewrite String.eqb_refl. simpl.
  destruct (dict_get d "count") as [c|]; [|reflexivity].
  now intros ->.
Qed.

(** An allowed call in the month of the stored record changes the count
    and nothing else: the new file is the stored dict with the same keys in
    the same order, [count] one higher, every other value as it was. *)
Theorem increment_changes_only_count now w t d c n :
  usage_file w = Some t -> json_loads t = Some (JObj d) ->
  dict_get d "month" = Some (JStr now) ->
  dict_get d "count" = Some c -> py_int c = Ret n -> n < cap ->
  exists d',
    check_and_increment_usage json_loads json_dumps cap now w
    = (Ret true, reserved json_dumps cap w (JObj d') (JNum (n + 1)))
    /\ map fst d' = map fst d
    /\ dict_get d' "count" = Some (JNum (n + 1))
    /\ forall k, k <> "count" -> dict_get d' k = dict_get d k.
Proof.
  intros Hf Hl Hm Hc Hn Hlt.
  exists (dict_set d "count" (JNum (n + 1))).
  rewrite (gate_current _ _ _ now w t d c n Hf Hl Hm Hc Hn).
  destruct (Z.leb_spec cap n); [lia|].
  split; [reflexivity|]. split; [now apply dict_set_keys with c|].
  split; [apply dict_get_set_same|].
  intros k Hk. apply dict_get_set_other. congruence.
Qed.

(** No run of calls removes the usage file. *)
Lemma run_gate_keeps_file l : forall w,
  usage_file w <> None -> usage_file (snd (run l w)) <> None.
Proof.
  induction l as [|m l IH]; intros w Hw; [exact Hw|].
  rewrite run_gate_cons. destruct (gate m w) as [[[|]|e] w'] eqn:Hg.
  - destruct (gate_allowed_inv _ _ _ m w w' Hg) as (d & n & -> & _).
    specialize (IH (reserved json_dumps cap w (JObj d) (JNum (n + 1)))
                   ltac:(discriminate)).
    destruct (run l _) as [[bs|e] u]; exact IH.
  - destruct (gate_denied_inv _ _ _ m w w' Hg) as (c & ->).
    specialize (IH (refused cap w c) Hw).
    destruct (run l _) as [[bs|e] u]; exact IH.
  - now rewrite (gate_raise_inv _ _ _ m w w' e Hg).
Qed.

Hypothesis loads_dumps : forall v, json_loads (json_dumps v) = Some v.

(** From a stored count [c] of the current month, at most the cap, exactly
    [cap - c] further calls are allowed: of [k] calls the first
    [min k (cap - c)] return [True], the rest [False], and the count then
    stored is [min (c + k) cap]. *)
Theorem remaining_quota now (k : nat) w c :
  usage_file w = Some (json_dumps (usage_record now c)) -> c <= cap ->
  fst (run_gate json_loads json_dumps cap (repeat now k) w)
  = Ret (repeat true (Nat.min k (Z.to_nat (cap - c)))
         ++ repeat false (k - Z.to_nat (cap - c)))%list
  /\ usage_file (snd (run_gate json_loads json_dumps cap (repeat now k) w))
     = Some (json_dumps (usage_record now (Z.min (c + Z.of_nat k) cap))).
Proof.
  intros Hf Hle.
  assert (Hh : holds json_dumps w now c) by (now left).
  set (a := Nat.min k (Z.to_nat (cap - c))).
  set (b := (k - Z.to_nat (cap - c))%nat).
  assert (Hk : repeat now k = (repeat now a ++ repeat now b)%list).
  { rewrite <- repeat_app. f_equal. subst a b. lia. }
  assert (Ha : c + Z.of_nat a <= cap) by (unfold a; lia).
  destruct (run_gate_within _ _ _ loads_dumps now a w c Hh Ha) as (Hr & Hh1 & _).
  pose proof (run_gate_keeps_file (repeat now a) w) as Hkeep.
  rewrite Hk, run_gate_app.
  destruct (run (repeat now a) w) as [[bs1|e] w1]; simpl in Hr, Hh1;
    try discriminate.
  injection Hr as ->.
  assert (Hfile : forall w', usage_file w' = usage_file w1 ->
            usage_file w' = Some (json_dumps (usage_record now (c + Z.of_nat a)))).
  { intros w' ->. destruct Hh1 as [Hs | [_ Hn]]; [exact Hs|].
    exfalso. revert Hn. apply Hkeep. now rewrite Hf. }
  destruct (Nat.eq_dec b 0) as [Hb0 | Hb].
  - rewrite Hb0. simpl. rewrite app_nil_r. split; [reflexivity|].
    rewrite (Hfile w1 eq_refl). do 3 f_equal. subst a b. lia.
  - assert (Hfull : c + Z.of_nat a = cap) by (subst a b; lia).
    rewrite Hfull in Hh1.
    destruct (run_gate_exhausted _ _ _ loads_dumps now b w1 cap Hh1 (Z.le_refl _))
      as (Hr2 & Hf2 & _).
    destruct (run (repeat now b) w1) as [[bs2|e] w2]; simpl in Hr2, Hf2;
      try discriminate.
    injection Hr2 as ->. cbn [fst snd]. split; [reflexivity|].
    rewrite (Hfile w2 Hf2). do 3 f_equal. subst a b. lia.
Qed.

Lemma run_same_month_file m (N : nat) : forall w c,
  usage_file w = Some (json_dumps (usage_record m c)) ->
  exists bs c',
    fst (run (repeat m N) w) = Ret bs /\ List.length bs = N
    /\ usage_file (snd (run (repeat m N) w)) = Some (json_dumps (usage_record m c')).
Proof.
  induction N as [|N IH]; intros w c Hf.
  - exists [], c. simpl. auto.
  - change (repeat m (S N)) with (m :: repeat m N).
    rewrite run_gate_cons,
      (gate_holds _ _ _ loads_dumps m w c (or_introl Hf)).
    destruct (cap <=? c).
    + destruct (IH (refused cap w (JNum c)) c Hf) as (bs & c' & Hr & Hl & Hf').
      destruct (run (repeat m N) (refused cap w (JNum c))) as [[bs'|e] u];
        simpl in Hr, Hf'; try discriminate.
      injection Hr as ->. exists (false :: bs), c'. simpl. auto.
    + destruct (IH (reserved json_dumps cap w (usage_record m (c + 1)) (JNum (c + 1)))
                   (c + 1) eq_refl) as (bs & c' & Hr & Hl & Hf').
      destruct (run (repeat m N) _) as [[bs'|e] u]; simpl in Hr, Hf';
        try discriminate.
      injection Hr as ->. exists (true :: bs), c'. simpl. auto.
Qed.

(** However many calls a month has seen, exhausted or not, the first
    call of another month is allowed and restarts the count at 1. *)
Theorem new_month_reopens_gate m m' (N : nat) w c :
  0 < cap -> m' <> m ->
  usage_file w = Some (json_dumps (usage_record m c)) ->
  exists bs,
    fst (run_gate json_loads json_dumps cap (repeat m N ++ [m']) w)
    = Ret (bs ++ [true])%list
    /\ List.length bs = N
    /\ usage_file (snd (run_gate json_loads json_dumps cap (repeat m N ++ [m']) w))
       = Some (json_dumps (usage_record m' 1)).
Proof.
  intros Hpos Hne Hf.
  destruct (run_same_month_file m N w c Hf) as (bs & c' & Hr & Hl & Hf').
  exists bs. rewrite run_gate_app.
  destruct (run (repeat m N) w) as [[bs'|e] w1]; simpl in Hr, Hf';
    try discriminate.
  injection Hr as ->.
  rewrite run_gate_cons,
    (gate_stale _ _ _ m' w1 _ _ Hf' (loads_dumps _))
    by (simpl; intros [= E]; now apply Hne).
  destruct (Z.leb_spec cap 0); [lia|]. simpl. auto.
Qed.

End Gate.

(** *** What [generate_image] does after the gate *)

Section Generator.

Context {text : Type}.
Variable json_loads : text -> option json.
Variable json_dumps : json -> text.
Variable cap : Z.
Variable sdk : Sdk.

Local Abbreviation gate := (check_and_increment_usage json_loads json_dumps cap).
Local Abbreviation generate := (generate_image json_loads json_dumps cap sdk).

Lemma generate_after_gate now prompt output_path w :
  generate now prompt output_path w =
  match gate now w with
  | (Ret true, w1) => after_admission sdk prompt output_path w1
  | (Ret false, w1) => (Raise (SystemExit 1), w1)
  | (Raise e, w1) => (Raise e, w1)
  end.
Proof.
  unfold generate_image, bind at 1.
  destruct (gate now w) as [[[|]|e] w1]; reflexivity.
Qed.

(** Every way [after_admission] can go: the library is missing, one of the
    four calls raises, no image comes back, or all goes well. *)
Ltac admitted_cases prompt output_path :=
  unfold after_admission, bind, setenv, print, external, raise, ret;
  cbn [fst snd usage_file writes environ calls stdout negb];
  destruct (installed sdk) eqn:?; cbn [negb];
  [ destruct (fails sdk (VertexInit PROJECT_ID LOCATION)) eqn:?;
    [ | destruct (fails sdk (FromPretrained MODEL_ID)) eqn:?;
        [ | destruct (fails sdk (GenerateImages prompt 1)) eqn:?;
            [ | destruct (images_for sdk prompt) eqn:?;
                [ | destruct (fails sdk (ImageSave output_path)) eqn:? ] ] ] ]
  | ];
  cbn [fst snd usage_file writes environ calls stdout].

(** After admission the usage file is never touched again: nothing is
    refunded when the generation fails. *)
Lemma after_admission_keeps_store prompt output_path (w1 : World text) :
  usage_file (snd (after_admission sdk prompt output_path w1)) = usage_file w1
  /\ writes (snd (after_admission sdk prompt output_path w1)) = writes w1.
Proof. admitted_cases prompt output_path; auto. Qed.

Lemma after_admission_calls prompt output_path (w1 : World text) :
  exists k,
    calls (snd (after_admission sdk prompt output_path w1))
    = (calls w1 ++ firstn k (full_run prompt output_path))%list.
Proof.
  admitted_cases prompt output_path;
    rewrite <- ?app_assoc; cbn [app];
    [ exists 1%nat | exists 2%nat | exists 3%nat | exists 3%nat
    | exists 4%nat | exists 4%nat | exists 0%nat ];
    cbn [firstn full_run]; now rewrite ?app_nil_r.
Qed.

(** Whatever the gate decides and the library does, the calls
    [generate_image] makes are an initial part of init, load model,
    generate one image, save: in this order, each at most once. *)
Theorem generation_calls_are_a_prefix now prompt output_path w :
  exists k,
    calls (snd (generate_image json_loads json_dumps cap sdk now prompt
                  output_path w))
    = (calls w ++ firstn k (full_run prompt output_path))%list.
Proof.
  rewrite generate_after_gate.
  destruct (gate now w) as [[[|]|e] w1] eqn:Hg.
  - destruct (gate_allowed_inv _ _ _ now w w1 Hg) as (d & n & -> & _).
    destruct (after_admission_calls prompt output_path
                (reserved json_dumps cap w (JObj d) (JNum (n + 1)))) as (k & Hk).
    exists k. exact Hk.
  - destruct (gate_denied_inv _ _ _ now w w1 Hg) as (c & ->).
    exists 0%nat. simpl. now rewrite app_nil_r.
  - rewrite (gate_raise_inv _ _ _ now w w1 e Hg).
    exists 0%nat. simpl. now rewrite app_nil_r.
Qed.

(** [generate_image] changes the usage file through the gate only: the
    file and the writes it leaves are those the gate left, however the
    generation ends.  A reservation is never given back. *)
Theorem store_changes_only_at_the_gate now prompt output_path w :
  usage_file (snd (generate_image json_loads json_dumps cap sdk now prompt
                     output_path w))
  = usage_file (snd (check_and_increment_usage json_loads json_dumps cap now w))
  /\ writes (snd (generate_image json_loads json_dumps cap sdk now prompt
                    output_path w))
     = writes (snd (check_and_increment_usage json_loads json_dumps cap now w)).
Proof.
  rewrite generate_after_gate.
  destruct (gate now w) as [[[|]|e] w1]; cbn [snd]; auto.
  apply after_admission_keeps_store.
Qed.

(** No client-library call without a reservation: when [generate_image]
    has made a call, the gate had allowed the request and exactly one usage
    record was written, which is the file. *)
Theorem call_requires_reservation now prompt output_path w :
  calls (snd (generate_image json_loads json_dumps cap sdk now prompt
                output_path w)) <> calls w ->
  fst (check_and_increment_usage json_loads json_dumps cap now w) = Ret true
  /\ exists t,
       writes (snd (generate_image json_loads json_dumps cap sdk now prompt
                      output_path w)) = (writes w ++ [t])%list
       /\ usage_file (snd (generate_image json_loads json_dumps cap sdk now prompt
                             output_path w)) = Some t.
Proof.
  rewrite generate_after_gate.
  destruct (gate now w) as [[[|]|e] w1] eqn:Hg; cbn [fst snd].
  - intros _. split; [reflexivity|].
    destruct (gate_allowed_inv _ _ _ now w w1 Hg) as (d & n & -> & _).
    exists (json_dumps (JObj d)).
    destruct (after_admission_keeps_store prompt output_path
                (reserved json_dumps cap w (JObj d) (JNum (n + 1)))) as (-> & ->).
    auto.
  - destruct (gate_denied_inv _ _ _ now w w1 Hg) as (c & ->). now intros [].
  - rewrite (gate_raise_inv _ _ _ now w w1 e Hg). now intros [].
Qed.

(** When the client library is not installed, an allowed request still
    costs one unit of quota: the script exits with status 1 without any
    call, and the reservation stays written. *)
Theorem missing_library_spends_quota now prompt output_path w :
  fst (check_and_increment_usage json_loads json_dumps cap now w) = Ret true ->
  installed sdk = false ->
  fst (generate_image json_loads json_dumps cap sdk now prompt output_path w)
  = Raise (SystemExit 1)
  /\ calls (snd (generate_image json_loads json_dumps cap sdk now prompt
                   output_path w)) = calls w
  /\ exists t,
       writes (snd (generate_image json_loads json_dumps cap sdk now prompt
                      output_path w)) = (writes w ++ [t])%list.
Proof.
  intros Ha Hi. rewrite generate_after_gate.
  destruct (gate now w) as [[[|]|e] w1] eqn:Hg; simpl in Ha; try discriminate.
  destruct (gate_allowed_inv _ _ _ now w w1 Hg) as (d & n & -> & _).
  unfold after_admission, bind, setenv, print, raise. rewrite Hi. simpl.
  repeat split. now exists (json_dumps (JObj d)).
Qed.

(** [generate_image] returns only after a complete generation: the value
    is the output path, all four calls were made, the credentials variable
    was set and one usage record was written. *)
Theorem generation_returns_output_path now prompt output_path w p :
  fst (generate_image json_loads json_dumps cap sdk now prompt output_path w)
  = Ret p ->
  p = output_path
  /\ calls (snd (generate_image json_loads json_dumps cap sdk now prompt
                   output_path w))
     = (calls w ++ full_run prompt output_path)%list
  /\ environ (snd (generate_image json_loads json_dumps cap sdk now prompt
                     output_path w))
     = ("GOOGLE_APPLICATION_CREDENTIALS", CREDENTIALS_FILE) :: environ w
  /\ exists t,
       writes (snd (generate_image json_loads json_dumps cap sdk now prompt
                      output_path w)) = (writes w ++ [t])%list.
Proof.
  rewrite generate_after_gate.
  destruct (gate now w) as [[[|]|e] w1] eqn:Hg; try discriminate.
  destruct (gate_allowed_inv _ _ _ now w w1 Hg) as (d & n & -> & _).
  admitted_cases prompt output_path; try discriminate.
  intros [= <-]. rewrite <- !app_assoc. repeat split.
  now exists (json_dumps (JObj d)).
Qed.

(** An allowed request with the library installed, no call raising and at
    least one image returned ends with the output path. *)
Theorem generation_succeeds now prompt output_path w :
  fst (check_and_increment_usage json_loads json_dumps cap now w) = Ret true ->
  installed sdk = true ->
  (forall c, In c (full_run prompt output_path) -> fails sdk c = false) ->
  images_for sdk prompt <> 0%nat ->
  fst (generate_image json_loads json_dumps cap sdk now prompt output_path w)
  = Ret output_path.
Proof.
  intros Ha Hi Hok Him. rewrite generate_after_gate.
  destruct (gate now w) as [[[|]|e] w1] eqn:Hg; simpl in Ha; try discriminate.
  assert (H1 := Hok (VertexInit PROJECT_ID LOCATION) ltac:(simpl; auto)).
  assert (H2 := Hok (FromPretrained MODEL_ID) ltac:(simpl; auto)).
  assert (H3 := Hok (GenerateImages prompt 1) ltac:(simpl; auto)).
  assert (H4 := Hok (ImageSave output_path) ltac:(simpl; auto 6)).
  admitted_cases prompt output_path; congruence.
Qed.

(** When the service returns no image, the generation call has been made
    and paid for, nothing is saved, and [IndexError] leaves
    [generate_image]. *)
Theorem no_image_raises_IndexError now prompt output_path w :
  fst (check_and_increment_usage json_loads json_dumps cap now w) = Ret true ->
  installed sdk = true ->
  (forall c, In c (firstn 3 (full_run prompt output_path)) -> fails sdk c = false) ->
  images_for sdk prompt = 0%nat ->
  fst (generate_image json_loads json_dumps cap sdk now prompt output_path w)
  = Raise IndexError
  /\ calls (snd (generate_image json_loads json_dumps cap sdk now prompt
                   output_path w))
     = (calls w ++ firstn 3 (full_run prompt output_path))%list.
Proof.
  intros Ha Hi Hok Him. rewrite generate_after_gate.
  destruct (gate now w) as [[[|]|e] w1] eqn:Hg; simpl in Ha; try discriminate.
  destruct (gate_allowed_inv _ _ _ now w w1 Hg) as (d & n & -> & _).
  assert (H1 := Hok (VertexInit PROJECT_ID LOCATION) ltac:(simpl; auto)).
  assert (H2 := Hok (FromPretrained MODEL_ID) ltac:(simpl; auto)).
  assert (H3 := Hok (GenerateImages prompt 1) ltac:(simpl; auto)).
  admitted_cases prompt output_path; try congruence.
  rewrite <- !app_assoc. auto.
Qed.

(** The script calls the client library only when it was given a prompt
    and a reservation was written; with no prompt it exits with status 1
    and leaves the world as it was. *)
Theorem script_call_requires_prompt argv now (p : Process text) :
  match argv with
  | _ :: prompt :: _ =>
      calls (world (snd (script json_loads json_dumps cap sdk argv now p)))
      <> calls (world p) ->
      exists t,
        writes (world (snd (script json_loads json_dumps cap sdk argv now p)))
        = (writes (world p) ++ [t])%list
  | _ =>
      fst (script json_loads json_dumps cap sdk argv now p) = Raise (SystemExit 1)
      /\ world (snd (script json_loads json_dumps cap sdk argv now p)) = world p
  end.
Proof.
  destruct argv as [|name [|prompt rest]]; try (simpl; auto; fail).
  unfold script.
  set (out := match rest with o :: _ => o | [] => "output.png" end).
  rewrite generate_after_gate.
  destruct (gate now (world p)) as [[[|]|e] w1] eqn:Hg.
  - intros _.
    destruct (gate_allowed_inv _ _ _ now (world p) w1 Hg) as (d & n & -> & _).
    exists (json_dumps (JObj d)).
    pose proof (after_admission_keeps_store prompt out
                  (reserved json_dumps cap (world p) (JObj d) (JNum (n + 1))))
      as (_ & Hw).
    destruct (after_admission sdk prompt out _) as [[v|e] w2]; exact Hw.
  - destruct (gate_denied_inv _ _ _ now (world p) w1 Hg) as (c & ->).
    now intros [].
  - rewrite (gate_raise_inv _ _ _ now (world p) w1 e Hg). now intros [].
Qed.

End Generator.

(** *** The properties on examples *)

Lemma malformed_store_raises_example :
  decoded_loads (Some (JArr [])) = Some (JArr [])
  /\ gate_at 2 "2025-01" (with_file first_run (Some (JArr [])))
     = (Raise AttributeError, with_file first_run (Some (JArr []))).
Proof.
  split; [reflexivity|].
  exact (malformed_store_raises decoded_loads decoded_dumps 2 "2025-01"
           (with_file first_run (Some (JArr []))) (Some (JArr [])) (JArr [])
           eq_refl eq_refl).
Defined.

Lemma increment_changes_only_count_example :
  3 < 5
  /\ exists d',
       gate_at 5 "2025-01" (with_file first_run (Some annotated))
       = (Ret true,
          reserved decoded_dumps 5 (with_file first_run (Some annotated))
                   (JObj d') (JNum 4))
       /\ map fst d' = ["month"; "note"; "count"]
       /\ dict_get d' "note" = Some (JStr "trial").
Proof.
  split; [lia|].
  destruct (increment_changes_only_count decoded_loads decoded_dumps 5 "2025-01"
              (with_file first_run (Some annotated)) (Some annotated)
              [("month", JStr "2025-01"); ("note", JStr "trial"); ("count", JNum 3)]
              (JNum 3) 3 eq_refl eq_refl eq_refl eq_refl eq_refl ltac:(lia))
    as (d' & Hg & Hk & _ & Hother).
  exists d'. split; [exact Hg|]. split; [exact Hk|].
  exact (Hother "note" ltac:(discriminate)).
Defined.

Lemma remaining_quota_example :
  3 <= 5
  /\ fst (run_at 5 (repeat "2025-01" 4)
            (with_file first_run (Some (usage_record "2025-01" 3))))
     = Ret [true; true; false; false]
  /\ usage_file (snd (run_at 5 (repeat "2025-01" 4)
                        (with_file first_run (Some (usage_record "2025-01" 3)))))
     = Some (Some (usage_record "2025-01" 5)).
Proof.
  split; [lia|].
  exact (remaining_quota decoded_loads decoded_dumps 5 decoded_round_trip
           "2025-01" 4 (with_file first_run (Some (usage_record "2025-01" 3))) 3
           eq_refl ltac:(lia)).
Defined.

Lemma new_month_reopens_gate_example :
  0 < 2 /\ "2025-02" <> "2025-01"
  /\ exists bs,
       fst (run_at 2 (repeat "2025-01" 3 ++ ["2025-02"])
              (with_file first_run (Some (usage_record "2025-01" 2))))
       = Ret (bs ++ [true])%list
       /\ List.length bs = 3%nat
       /\ usage_file (snd (run_at 2 (repeat "2025-01" 3 ++ ["2025-02"])
                             (with_file first_run (Some (usage_record "2025-01" 2)))))
          = Some (Some (usage_record "2025-02" 1)).
Proof.
  split; [lia|]. split; [discriminate|].
  exact (new_month_reopens_gate decoded_loads decoded_dumps 2 decoded_round_trip
           "2025-01" "2025-02" 3
           (with_file first_run (Some (usage_record "2025-01" 2))) 2
           ltac:(lia) ltac:(discriminate) eq_refl).
Defined.

Lemma call_requires_reservation_example :
  calls (snd (generate_image decoded_loads decoded_dumps 2 working_sdk
                "2025-01" "a red kite" "output.png" first_run))
  <> calls first_run
  /\ fst (gate_at 2 "2025-01" first_run) = Ret true.
Proof.
  split; [discriminate|].
  exact (proj1 (call_requires_reservation decoded_loads decoded_dumps 2 working_sdk
                  "2025-01" "a red kite" "output.png" first_run
                  ltac:(discriminate))).
Defined.

Lemma missing_library_spends_quota_example :
  fst (gate_at 2 "2025-01" first_run) = Ret true
  /\ installed absent_sdk = false
  /\ fst (generate_image decoded_loads decoded_dumps 2 absent_sdk
            "2025-01" "a red kite" "output.png" first_run)
     = Raise (SystemExit 1)
  /\ calls (snd (generate_image decoded_loads decoded_dumps 2 absent_sdk
                   "2025-01" "a red kite" "output.png" first_run)) = [].
Proof.
  split; [reflexivity|]. split; [reflexivity|].
  destruct (missing_library_spends_quota decoded_loads decoded_dumps 2 absent_sdk
              "2025-01" "a red kite" "output.png" first_run eq_refl eq_refl)
    as (H1 & H2 & _).
  split; [exact H1 | exact H2].
Defined.

Lemma generation_returns_output_path_example :
  fst (generate_image decoded_loads decoded_dumps 2 working_sdk
         "2025-01" "a red kite" "kite.png" first_run) = Ret "kite.png"
  /\ calls (snd (generate_image decoded_loads decoded_dumps 2 working_sdk
                   "2025-01" "a red kite" "kite.png" first_run))
     = full_run "a red kite" "kite.png".
Proof.
  split; [reflexivity|].
  exact (proj1 (proj2 (generation_returns_output_path decoded_loads decoded_dumps
                         2 working_sdk "2025-01" "a red kite" "kite.png"
                         first_run "kite.png" eq_refl))).
Defined.

Lemma generation_succeeds_example :
  fst (gate_at 2 "2025-01" first_run) = Ret true
  /\ installed working_sdk = true
  /\ images_for working_sdk "a red kite" <> 0%nat
  /\ fst (generate_image decoded_loads decoded_dumps 2 working_sdk
            "2025-01" "a red kite" "kite.png" first_run) = Ret "kite.png".
Proof.
  split; [reflexivity|]. split; [reflexivity|]. split; [discriminate|].
  exact (generation_succeeds decoded_loads decoded_dumps 2 working_sdk
           "2025-01" "a red kite" "kite.png" first_run
           eq_refl eq_refl (fun _ _ => eq_refl) ltac:(discriminate)).
Defined.

Lemma no_image_raises_IndexError_example :
  fst (gate_at 2 "2025-01" first_run) = Ret true
  /\ images_for empty_handed_sdk "a red kite" = 0%nat
  /\ fst (generate_image decoded_loads decoded_dumps 2 empty_handed_sdk
            "2025-01" "a red kite" "kite.png" first_run) = Raise IndexError
  /\ calls (snd (generate_image decoded_loads decoded_dumps 2 empty_handed_sdk
                   "2025-01" "a red kite" "kite.png" first_run))
     = [VertexInit PROJECT_ID LOCATION; FromPretrained MODEL_ID;
        GenerateImages "a red kite" 1].
Proof.
  split; [reflexivity|]. split; [reflexivity|].
  exact (no_image_raises_IndexError decoded_loads decoded_dumps 2 empty_handed_sdk
           "2025-01" "a red kite" "kite.png" first_run
           eq_refl eq_refl (fun _ _ => eq_refl) eq_refl).
Defined.

End ImagenBehaviour.

(** ** Further behaviour of the search client *)

Module FreepikBehaviour.
Import Freepik FreepikScript FreepikSpec.

Section Search.

Variable API_KEY : string.
Variable network : Request -> outcome Response.

Lemma print_resources_requests items : forall w,
  requests (snd (print_resources items w)) = requests w.
Proof.
  induction items as [|res items IH]; intros w; [reflexivity|].
  simpl. unfold bind, lift, print.
  destruct res; try reflexivity. simpl. now rewrite IH.
Qed.

Lemma print_resources_raises items : forall w e,
  fst (print_resources items w) = Raise e -> e = AttributeError.
Proof.
  induction items as [|res items IH]; intros w e; [discriminate|].
  simpl. unfold bind, lift, print.
  destruct res; simpl; try (now intros [= <-]). apply IH.
Qed.

(** The part of [search_resources] that runs once [response] is bound. *)
Lemma search_after_get query limit page w :
  search_resources API_KEY network query limit page w =
  let w1 := mkWorld (requests w ++ [search_request API_KEY query limit page])
                    (stdout w ++ [Searching query]) in
  match network (search_request API_KEY query limit page) with
  | Raise e =>
      if is_RequestException e
      then on_request_exception None e w1
      else (Raise e, w1)
  | Ret response =>
      try_except
        (lift (raise_for_status response) ;;;
         data <- lift (response_json response) ;;
         resources <- lift (py_get_default data "data" (JArr [])) ;;
         n <- lift (py_len resources) ;;
         print (Found n) ;;;
         items <- lift (py_iter resources) ;;
         print_resources items ;;;
         ret resources)
        (on_request_exception (Some response)) w1
  end.
Proof.
  unfold search_resources, try_except at 1, bind at 1 2, requests_get, print.
  fold (search_request API_KEY query limit page). cbn [fst snd requests stdout].
  destruct (network (search_request API_KEY query limit page)) as [r|e];
    [|reflexivity].
  destruct (try_except _ _ _) as [[v|e] w2] eqn:Ht; [reflexivity|].
  assert (He : is_RequestException e = false).
  { revert Ht. unfold try_except.
    destruct (_ ;;; _) as [[v|e'] w3]; [discriminate|].
    destruct (is_RequestException e') eqn:E'; [|now intros [= <- _]].
    unfold on_request_exception, bind, print, ret.
    destruct (String.eqb (text r) ""); discriminate. }
  now rewrite He.
Qed.

Lemma requests_after_search query limit page w :
  requests (snd (search_resources API_KEY network query limit page w))
  = (requests w ++ [search_request API_KEY query limit page])%list.
Proof.
  rewrite search_after_get. cbv zeta.
  destruct (network (search_request API_KEY query limit page)) as [r|e].
  - unfold try_except, bind, lift, print, ret, on_request_exception.
    destruct (raise_for_status r) as [[]|e1]; cbn [fst snd requests stdout].
    2: { destruct (is_RequestException e1); [|reflexivity].
         destruct (String.eqb (text r) ""); reflexivity. }
    destruct (response_json r) as [data|e2]; cbn [fst snd requests stdout].
    2: { destruct (is_RequestException e2); [|reflexivity].
         destruct (String.eqb (text r) ""); reflexivity. }
    destruct (py_get_default data "data" (JArr [])) as [resources|e3];
      cbn [fst snd requests stdout].
    2: { destruct (is_RequestException e3); [|reflexivity].
         destruct (String.eqb (text r) ""); reflexivity. }
    destruct (py_len resources) as [n|e4]; cbn [fst snd requests stdout].
    2: { destruct (is_RequestException e4); [|reflexivity].
         destruct (String.eqb (text r) ""); reflexivity. }
    destruct (py_iter resources) as [items|e5]; cbn [fst snd requests stdout].
    2: { destruct (is_RequestException e5); [|reflexivity].
         destruct (String.eqb (text r) ""); reflexivity. }
    match goal with |- context [print_resources items ?u] =>
      pose proof (print_resources_requests items u) as Hp;
      destruct (print_resources items u) as [[[]|e6] w6] end;
      cbn [fst snd requests stdout] in Hp |- *; [exact Hp|].
    destruct (is_RequestException e6); [|exact Hp].
    destruct (String.eqb (text r) ""); cbn [fst snd requests stdout]; exact Hp.
  - destruct (is_RequestException e); [|reflexivity].
    unfold on_request_exception, bind, print, raise. reflexivity.
Qed.

(** One call of [search_resources] sends exactly one request, with the
    query as [term], the given [limit] and [page] and the key in its
    header, whatever the network answers and however the call ends: there
    is no retry and no second page. *)
Theorem search_sends_one_request query limit page w :
  requests (snd (search_resources API_KEY network query limit page w))
  = (requests w ++ [search_request API_KEY query limit page])%list.
Proof. apply requests_after_search. Qed.

(** No [RequestException] ever leaves [search_resources]: whatever it
    raises is of another kind. *)
Theorem search_never_raises_RequestException query limit page w e :
  fst (search_resources API_KEY network query limit page w) = Raise e ->
  is_RequestException e = false.
Proof.
  rewrite search_after_get. cbv zeta.
  destruct (network (search_request API_KEY query limit page)) as [r|e0].
  - unfold try_except.
    destruct (_ ;;; _) as [[v|e'] w3]; [discriminate|].
    destruct (is_RequestException e') eqn:E'; [|now intros [= <-]].
    unfold on_request_exception, bind, print, ret.
    destruct (String.eqb (text r) ""); discriminate.
  - destruct (is_RequestException e0) eqn:E0; [|now intros [= <-]].
    unfold on_request_exception, bind, print, raise. now intros [= <-].
Qed.

(** An answer that is not an HTTP error but has the wrong shape is not
    handled.  A JSON body that is not an object raises [AttributeError]; a
    [data] value that has no length ([null], a number, a bool) raises
    [TypeError].  Only the search line has been printed. *)
Theorem malformed_answer_raises query limit page w r body :
  network (search_request API_KEY query limit page) = Ret r ->
  raise_for_status r = Ret tt ->
  json_body r = Some body ->
  (is_dict body = false ->
   search_resources API_KEY network query limit page w
   = (Raise AttributeError,
      mkWorld (requests w ++ [search_request API_KEY query limit page])
              (stdout w ++ [Searching query])))
  /\ (forall d v,
        body = JObj d -> dict_get d "data" = Some v -> py_len v = Raise TypeError ->
        search_resources API_KEY network query limit page w
        = (Raise TypeError,
           mkWorld (requests w ++ [search_request API_KEY query limit page])
                   (stdout w ++ [Searching query]))).
Proof.
  intros Hnet Hst Hbody. rewrite search_after_get, Hnet. cbv zeta.
  unfold try_except, bind, lift, response_json. rewrite Hst, Hbody.
  cbn [fst snd]. split.
  - intros Hd. destruct body; try discriminate; reflexivity.
  - intros d v -> Hdata Hlen. simpl. rewrite Hdata, Hlen. reflexivity.
Qed.

Lemma print_resources_stops pre bad post : forall w,
  forallb is_dict pre = true -> is_dict bad = false ->
  print_resources (pre ++ bad :: post) w
  = (Raise AttributeError, mkWorld (requests w) (stdout w ++ map summary pre)).
Proof.
  induction pre as [|res pre IH]; intros w Hpre Hbad.
  - simpl. rewrite app_nil_r. unfold bind, lift.
    destruct bad; try discriminate; now destruct w.
  - simpl in Hpre. apply andb_true_iff in Hpre as [Hres Hpre].
    destruct res; try discriminate.
    simpl. unfold bind, lift, print. simpl. rewrite (IH _ Hpre Hbad). simpl.
    now rewrite <- app_assoc.
Qed.

(** A result list with an item that is not an object: the count and the
    lines of the items before it are printed, then [AttributeError] leaves
    the search and nothing is returned. *)
Theorem item_that_is_no_object_raises query limit page w r d pre bad post :
  network (search_request API_KEY query limit page) = Ret r ->
  raise_for_status r = Ret tt ->
  json_body r = Some (JObj d) ->
  dict_get d "data" = Some (JArr (pre ++ bad :: post)) ->
  forallb is_dict pre = true -> is_dict bad = false ->
  search_resources API_KEY network query limit page w
  = (Raise AttributeError,
     mkWorld (requests w ++ [search_request API_KEY query limit page])
             (stdout w
              ++ [Searching query;
                  Found (Z.of_nat (List.length (pre ++ bad :: post)))]
              ++ map summary pre)).
Proof.
  intros Hnet Hst Hbody Hdata Hpre Hbad.
  rewrite search_after_get, Hnet. cbv zeta.
  unfold try_except, bind, lift, response_json, print. rewrite Hst, Hbody.
  simpl. rewrite Hdata. simpl.
  rewrite print_resources_stops by assumption. simpl.
  now rewrite <- !app_assoc.
Qed.

Lemma main_effects args p :
  requests (world (snd (main network API_KEY args p)))
  = (requests (world p)
     ++ match search args with
        | Some q => if String.eqb q "" then [] else [search_request API_KEY q 5 1]
        | None => []
        end)%list
  /\ notices (snd (main network API_KEY args p))
     = (notices p
        ++ if truthy (search args) then []
           else match download args with
                | Some i => if String.eqb i "" then [Help]
                            else [DownloadNotImplemented i; DownloadByHand]
                | None => [Help]
                end)%list
  /\ download_dir (snd (main network API_KEY args p)) = download_dir p.
Proof.
  unfold main, truthy.
  destruct (search args) as [q|].
  - destruct (String.eqb q ""); cbn [negb].
    + rewrite app_nil_r.
      destruct (download args) as [i|]; [destruct (String.eqb i "")|];
        cbn [negb]; unfold download_resource, bind, say; simpl;
        rewrite <- ?app_assoc; auto.
    + unfold bind, within, ret.
      pose proof (requests_after_search q 5 1 (world p)) as Hs.
      destruct (search_resources API_KEY network q 5 1 (world p)) as [[v|e] w'];
        cbn [fst snd world notices download_dir requests] in Hs |- *;
        rewrite app_nil_r; auto.
  - rewrite app_nil_r.
    destruct (download args) as [i|]; [destruct (String.eqb i "")|];
      cbn [negb]; unfold download_resource, bind, say; simpl;
      rewrite <- ?app_assoc; auto.
Qed.

(** What [main] does with its arguments.  A non-empty [--search] wins
    over [--download] and sends one request with [limit=5], [page=1]; an
    empty search string counts as absent; [--download] only prints its two
    lines; otherwise the help is printed.  Apart from a search, [main]
    sends nothing, and it never touches the download directory. *)
Theorem main_dispatch args p :
  requests (world (snd (main network API_KEY args p)))
  = (requests (world p)
     ++ match search args with
        | Some q => if String.eqb q "" then [] else [search_request API_KEY q 5 1]
        | None => []
        end)%list
  /\ notices (snd (main network API_KEY args p))
     = (notices p
        ++ if truthy (search args) then []
           else match download args with
                | Some i => if String.eqb i "" then [Help]
                            else [DownloadNotImplemented i; DownloadByHand]
                | None => [Help]
                end)%list
  /\ download_dir (snd (main network API_KEY args p)) = download_dir p.
Proof. apply main_effects. Qed.

End Search.

Section Script.

Variable keys : Type.
Variable load_dotenv : keys -> list (string * string) -> list (string * string).
Variable network : Request -> outcome Response.

Lemma startup_cases (h : Host keys) p :
  (exists file k,
     dotenv_installed h = true /\ master_keys h = Some file
     /\ getenv (load_dotenv file (os_environ h)) "FREEPIK_API_KEY" = Some k
     /\ k <> "" /\ startup load_dotenv h p = (Ret k, p))
  \/ (exists n,
        (dotenv_installed h = false \/ master_keys h = None
         \/ exists file, master_keys h = Some file
              /\ truthy (getenv (load_dotenv file (os_environ h)) "FREEPIK_API_KEY")
                 = false)
        /\ startup load_dotenv h p
           = (Raise (SystemExit 1),
              mkProcess (world p) (notices p ++ [n]) (download_dir p))).
Proof.
  unfold startup.
  destruct (dotenv_installed h) eqn:Hd; cbn [negb].
  2: { right. exists DotenvMissing. split; [now left | reflexivity]. }
  destruct (master_keys h) as [file|] eqn:Hm.
  2: { right. exists CredentialsMissing. split; [auto | reflexivity]. }
  destruct (truthy (getenv (load_dotenv file (os_environ h)) "FREEPIK_API_KEY"))
    eqn:Ht; cbn [negb].
  - left. unfold truthy in Ht.
    destruct (getenv _ _) as [k|] eqn:Hk; [|discriminate].
    exists file, k. do 2 (split; [reflexivity|]). split; [exact Hk|].
    split; [intros ->; discriminate|].
    reflexivity.
  - right. exists KeyMissing. split; [|reflexivity].
    right; right. now exists file.
Qed.

(** Without a usable key the script stops before it does anything: when
    [python-dotenv] is missing, the keys file is missing, or the key is
    unset or empty once the file is loaded, it prints one line and exits
    with status 1; no request is sent and no directory is made. *)
Theorem script_without_key_exits (h : Host keys) args p :
  (dotenv_installed h = false \/ master_keys h = None
   \/ exists file, master_keys h = Some file
        /\ truthy (getenv (load_dotenv file (os_environ h)) "FREEPIK_API_KEY")
           = false) ->
  fst (script load_dotenv network h args p) = Raise (SystemExit 1)
  /\ world (snd (script load_dotenv network h args p)) = world p
  /\ download_dir (snd (script load_dotenv network h args p)) = download_dir p
  /\ exists n,
       notices (snd (script load_dotenv network h args p))
       = (notices p ++ [n])%list.
Proof.
  intros Hbad.
  destruct (startup_cases h p) as [(file & k & Hd & Hm & Hk & Hne & _) | (n & _ & Hs)].
  - exfalso. destruct Hbad as [Hb | [Hb | (f & Hf & Ht)]]; try congruence.
    rewrite Hm in Hf. injection Hf as <-. rewrite Hk in Ht. simpl in Ht.
    destruct (String.eqb_spec k ""); [contradiction | discriminate].
  - unfold script, bind. rewrite Hs. simpl. repeat split. now exists n.
Qed.

(** A request the script sends is the search for a non-empty query, with
    the defaults, and carries the non-empty key found in the environment
    after the keys file was loaded; by then the download directory exists.
    In every other case the script sends nothing. *)
Theorem script_requests_carry_key (h : Host keys) args p :
  requests (world (snd (script load_dotenv network h args p)))
  = requests (world p)
  \/ exists file k q,
       master_keys h = Some file
       /\ getenv (load_dotenv file (os_environ h)) "FREEPIK_API_KEY" = Some k
       /\ k <> "" /\ search args = Some q /\ q <> ""
       /\ download_dir (snd (script load_dotenv network h args p)) = true
       /\ requests (world (snd (script load_dotenv network h args p)))
          = (requests (world p) ++ [search_request k q 5 1])%list.
Proof.
  destruct (startup_cases h p) as [(file & k & Hd & Hm & Hk & Hne & Hs) | (n & _ & Hs)].
  - assert (E : script load_dotenv network h args p
                = main network k args (mkProcess (world p) (notices p) true)).
    { unfold script, bind at 1. rewrite Hs. unfold bind, make_download_dir, ret.
      destruct p as [w ns [|]]; reflexivity. }
    rewrite E.
    destruct (main_effects k network args (mkProcess (world p) (notices p) true))
      as (Hr & _ & Hdir).
    cbn [world download_dir] in Hr, Hdir.
    destruct (search args) as [q|] eqn:Hq.
    + destruct (String.eqb_spec q "") as [->|Hqne].
      * left. now rewrite Hr, app_nil_r.
      * right. exists file, k, q. repeat split; auto.
    + left. now rewrite Hr, app_nil_r.
  - left. unfold script, bind. now rewrite Hs.
Qed.

End Script.

(** *** The properties on examples *)

Lemma search_never_raises_RequestException_example :
  fst (search_resources "key" offline "cat" 5 1 idle)
  = Raise (UnboundLocalError "response")
  /\ is_RequestException (UnboundLocalError "response") = false.
Proof.
  split; [reflexivity|].
  exact (search_never_raises_RequestException "key" offline "cat" 5 1 idle
           (UnboundLocalError "response") eq_refl).
Defined.

Lemma malformed_answer_raises_example :
  raise_for_status bare_list = Ret tt
  /\ is_dict (JArr [kite]) = false
  /\ search_resources "key" (serving bare_list) "bird" 5 1 idle
     = (Raise AttributeError,
        mkWorld [search_request "key" "bird" 5 1] [Searching "bird"]).
Proof.
  split; [reflexivity|]. split; [reflexivity|].
  exact (proj1 (malformed_answer_raises "key" (serving bare_list) "bird" 5 1 idle
                  bare_list (JArr [kite]) eq_refl eq_refl eq_refl)
               eq_refl).
Defined.

Lemma item_that_is_no_object_raises_example :
  raise_for_status mixed_hits = Ret tt
  /\ forallb is_dict [kite] = true /\ is_dict (JStr "owl") = false
  /\ search_resources "key" (serving mixed_hits) "bird" 5 1 idle
     = (Raise AttributeError,
        mkWorld [search_request "key" "bird" 5 1]
                [Searching "bird"; Found 3;
                 Resource (JNum 7) (JStr "Red kite") (JStr "https://fp/7")]).
Proof.
  split; [reflexivity|]. split; [reflexivity|]. split; [reflexivity|].
  exact (item_that_is_no_object_raises "key" (serving mixed_hits) "bird" 5 1 idle
           mixed_hits [("data", JArr [kite; JStr "owl"; owl])]
           [kite] (JStr "owl") [owl]
           eq_refl eq_refl eq_refl eq_refl eq_refl eq_refl).
Defined.

Lemma script_without_key_exits_example :
  truthy (getenv (keep_existing [("FREEPIK_API_KEY", "")] []) "FREEPIK_API_KEY")
  = false
  /\ fst (script keep_existing (serving two_hits) empty_key_host
            (mkArgs (Some "bird") None) fresh) = Raise (SystemExit 1)
  /\ world (snd (script keep_existing (serving two_hits) empty_key_host
                   (mkArgs (Some "bird") None) fresh)) = idle.
Proof.
  split; [reflexivity|].
  destruct (script_without_key_exits (list (string * string)) keep_existing
              (serving two_hits) empty_key_host (mkArgs (Some "bird") None) fresh
              (or_intror (or_intror
                 (ex_intro _ [("FREEPIK_API_KEY", "")] (conj eq_refl eq_refl)))))
    as (H1 & H2 & _).
  split; [exact H1 | exact H2].
Defined.

End FreepikBehaviour.
